(** * Bat/rat EDA pipeline: a shallow embedding of utils.py, models.py, eda.py

  The pipeline loads two tables, standardises them (numeric coercion,
  season derivation), draws a fixed set of figures and runs three
  statistical tests whose results are collected in a summary.

  Tables are pandas DataFrames.  They are modelled column-wise: a finite
  map from column names to columns, a column being the list of its cells.
  Numbers are Python numbers: [int] is [Z], [float] is IEEE binary64, taken
  from the standard library's [spec_float] (NaN is pandas' missing marker).
  Routines of pandas, scipy, matplotlib and the Python runtime that the
  source only calls are the fields of the class [Libs]; the file system
  and matplotlib's open figures are the state [world]. *)

From Stdlib Require Import ZArith Ascii String Floats.SpecFloat.
From stdpp Require Import gmap strings list pretty.

Local Open Scope Z_scope.

(** ** Exceptions and results *)

Inductive exn :=
| OverflowError      (* int(float('inf')) *)
| ValueError         (* int(float("nan")), int("abc") *)
| TypeError          (* int(None) *)
| KeyError (k : string)  (* df[k] for an absent column *)
| LibraryError (who : string).  (* raised inside a library routine *)

Inductive result (A : Type) :=
| Ok (a : A)
| Raise (e : exn).
Arguments Ok {A} a.
Arguments Raise {A} e.

Definition rbind {A B} (r : result A) (k : A → result B) : result B :=
  match r with
  | Ok a => k a
  | Raise e => Raise e
  end.

#[global] Instance result_ret : MRet result := @Ok.
#[global] Instance result_bind : MBind result := λ A B k r, rbind r k.

(** [[f(x) for x in l]], stopping at the first exception. *)
Fixpoint rmapM {A B} (f : A → result B) (l : list A) : result (list B) :=
  match l with
  | [] => Ok []
  | a :: l' => b ← f a; bs ← rmapM f l'; Ok (b :: bs)
  end.

Definition is_ok {A} (r : result A) : bool :=
  match r with Ok _ => true | Raise _ => false end.

(** ** Python numbers *)

Module PyFloat.

(** binary64 *)
Definition prec : Z := 53.
Definition emax : Z := 1024.

Definition nan : spec_float := S754_nan.
Definition of_Z (z : Z) : spec_float := binary_normalize prec emax z 0 false.
Definition eqb (x y : spec_float) : bool := SFeqb x y.
Definition is_nan (x : spec_float) : bool :=
  match x with S754_nan => true | _ => false end.
Definition is_finite (x : spec_float) : bool :=
  match x with S754_zero _ | S754_finite _ _ _ => true | _ => false end.

(** Magnitude of a finite float cut to its integer part: m * 2^e for
    e >= 0, m shifted right by -e bits otherwise. *)
Definition trunc_mag (m : positive) (e : Z) : Z :=
  match e with
  | Z0 => Zpos m
  | Zpos k => Z.shiftl (Zpos m) (Zpos k)
  | Zneg k => Z.shiftr (Zpos m) (Zpos k)
  end.

(** [int(x)] for a float [x]: truncation toward zero; infinities and NaN
    raise. *)
Definition to_int (x : spec_float) : result Z :=
  match x with
  | S754_zero _ => Ok 0
  | S754_finite s m e => Ok (if s then - trunc_mag m e else trunc_mag m e)
  | S754_infinity _ => Raise OverflowError
  | S754_nan => Raise ValueError
  end.

(** The value of a finite float as a fraction num/den, den > 0. *)
Definition num (x : spec_float) : Z :=
  match x with
  | S754_finite s m e =>
      let n := match e with Zpos k => Zpos m * 2 ^ Zpos k | _ => Zpos m end in
      if s then - n else n
  | _ => 0
  end.
Definition den (x : spec_float) : Z :=
  match x with
  | S754_finite _ _ (Zneg k) => 2 ^ Zpos k
  | _ => 1
  end.

(** Literals used below, as (mantissa, exponent) of their binary64 value. *)
Definition f0_5  : spec_float := S754_finite false 4503599627370496 (-53).
Definition f1_0  : spec_float := S754_finite false 4503599627370496 (-52).
Definition f3_5  : spec_float := S754_finite false 7881299347898368 (-51).
Definition f4_9  : spec_float := S754_finite false 5516909543528858 (-50).
Definition f10_5 : spec_float := S754_finite false 5910974510923776 (-49).
Definition f12_0 : spec_float := S754_finite false 6755399441055744 (-49).
Definition f12_5 : spec_float := S754_finite false 7036874417766400 (-49).
Definition inf   : spec_float := S754_infinity false.

End PyFloat.

#[global] Instance spec_float_eq_dec : EqDecision spec_float.
Proof. solve_decision. Defined.

(** ** Cells *)

(** What a cell of a table read from CSV, or written by the pipeline, holds. *)
Inductive cell :=
| VInt (z : Z)              (* int64 column *)
| VFloat (f : spec_float)   (* float64 column; NaN = missing *)
| VStr (s : string)         (* object column *)
| VNone.                    (* Python None in an object column *)

#[global] Instance cell_eq_dec : EqDecision cell.
Proof. solve_decision. Defined.

Definition NaN : cell := VFloat PyFloat.nan.

(** [pd.isna] on a scalar, [Series.notna] on an element. *)
Definition isna (c : cell) : bool :=
  match c with
  | VFloat f => PyFloat.is_nan f
  | VNone => true
  | _ => false
  end.
Definition notna (c : cell) : bool := negb (isna c).

(** Equality of cells as values: what [==] and the grouping of [groupby] and
    [crosstab] use.  A missing cell equals nothing. *)
Definition cell_eqb (a b : cell) : bool :=
  match a, b with
  | VInt x, VInt y => x =? y
  | VFloat x, VFloat y => PyFloat.eqb x y
  | VInt x, VFloat y => PyFloat.eqb (PyFloat.of_Z x) y
  | VFloat x, VInt y => PyFloat.eqb x (PyFloat.of_Z y)
  | VStr s, VStr t => bool_decide (s = t)
  | _, _ => false
  end.

(** ** Strings *)

Definition ascii_lower (a : ascii) : ascii :=
  let n := Ascii.N_of_ascii a in
  if ((65 <=? n) && (n <=? 90))%N then Ascii.ascii_of_N (n + 32) else a.

(** [str.lower] (on ASCII letters) *)
Fixpoint str_lower (s : string) : string :=
  match s with
  | EmptyString => EmptyString
  | String a s' => String (ascii_lower a) (str_lower s')
  end.

(** The ASCII characters [str.strip] removes. *)
Definition is_space (a : ascii) : bool :=
  let n := Ascii.N_of_ascii a in
  (((9 <=? n) && (n <=? 13)) || ((28 <=? n) && (n <=? 32)))%N.

Fixpoint str_lstrip (s : string) : string :=
  match s with
  | EmptyString => EmptyString
  | String a s' => if is_space a then str_lstrip s' else s
  end.

Fixpoint str_rstrip (s : string) : string :=
  match s with
  | EmptyString => EmptyString
  | String a s' =>
      match str_rstrip s' with
      | EmptyString => if is_space a then EmptyString else String a EmptyString
      | r => String a r
      end
  end.

(** [str.strip] *)
Definition str_strip (s : string) : string := str_rstrip (str_lstrip s).

(** ** Tables *)

Record DataFrame := {
  nrows : nat;
  cols : gmap string (list cell);
}.

(** Every column has one cell per row. *)
Definition column_fits (df : DataFrame) : string → list cell → Prop :=
  λ _ col, length col = nrows df.
Definition wf_frame (df : DataFrame) : Prop := map_Forall (column_fits df) (cols df).

#[global] Instance column_fits_dec df c col : Decision (column_fits df c col).
Proof. unfold column_fits. apply _. Defined.
#[global] Instance wf_frame_dec (df : DataFrame) : Decision (wf_frame df).
Proof. unfold wf_frame. apply _. Defined.

(** [c in df.columns] *)
Definition has_col (df : DataFrame) (c : string) : bool :=
  bool_decide (is_Some (cols df !! c)).

(** [{c1, ..., cn} <= set(df.columns)] *)
Definition has_cols (df : DataFrame) (cs : list string) : bool :=
  forallb (has_col df) cs.

(** [df[c]] *)
Definition getitem (df : DataFrame) (c : string) : result (list cell) :=
  match cols df !! c with
  | Some col => Ok col
  | None => Raise (KeyError c)
  end.

(** [df[c] = col] *)
Definition setitem (df : DataFrame) (c : string) (col : list cell) : DataFrame :=
  {| nrows := nrows df; cols := <[c := col]> (cols df) |}.

(** [df[c] = v] for a scalar [v] *)
Definition setitem_scalar (df : DataFrame) (c : string) (v : cell) : DataFrame :=
  setitem df c (replicate (nrows df) v).

(** [df.drop(columns=[c], inplace=True)] for a present column *)
Definition drop_col (df : DataFrame) (c : string) : result DataFrame :=
  match cols df !! c with
  | Some _ => Ok {| nrows := nrows df; cols := delete c (cols df) |}
  | None => Raise (KeyError c)
  end.

(** [df.shape] *)
Definition shape (df : DataFrame) : nat * nat := (nrows df, size (cols df)).

(** [s.dropna()] *)
Definition dropna (s : list cell) : list cell := List.filter notna s.

(** [s.fillna(v)] for an integer [v]: in a float column the missing marker
    becomes the float [v], a None of an object column the integer. *)
Definition fillna_cell (v : Z) (c : cell) : cell :=
  match c with
  | VFloat S754_nan => VFloat (PyFloat.of_Z v)
  | VNone => VInt v
  | _ => c
  end.
Definition fillna (v : Z) (s : list cell) : list cell := map (fillna_cell v) s.

(** [a.where(a.notna(), b)] *)
Definition where_notna (a b : list cell) : list cell :=
  zip_with (λ x y, if notna x then x else y) a b.

(** [df.loc[df[k] == v, c]]: the cells of [vals] in the rows where [keys]
    equals [v]. *)
Definition loc_eq (keys : list cell) (v : cell) (vals : list cell) : list cell :=
  (List.filter (λ kv, cell_eqb kv.1 v) (zip keys vals)).*2.

(** Adds one observation to the group of its key. *)
Fixpoint group_add {A} (eqb : A → A → bool) (k : A) (v : cell)
    (gs : list (A * list cell)) : list (A * list cell) :=
  match gs with
  | [] => [(k, [v])]
  | (k', vs) :: gs' =>
      if eqb k k' then (k', vs ++ [v]) :: gs'
      else (k', vs) :: group_add eqb k v gs'
  end.

(** [df.groupby(keys)[vals]]: the groups of the rows with a non-missing key
    (listed here in order of first occurrence; pandas sorts them). *)
Definition groupby (keys vals : list cell) : list (cell * list cell) :=
  foldl (λ gs kv, if notna kv.1 then group_add cell_eqb kv.1 kv.2 gs else gs)
        [] (zip keys vals).

(** ** Contingency tables *)

(** Adds [n] to the count of key [k]. *)
Fixpoint bump_by {A} (eqb : A → A → bool) (k : A) (n : nat)
    (t : list (A * nat)) : list (A * nat) :=
  match t with
  | [] => [(k, n)]
  | (k', m) :: t' =>
      if eqb k k' then (k', (m + n)%nat) :: t'
      else (k', m) :: bump_by eqb k n t'
  end.

(** Observed frequencies, one entry per pair of categories that occurs. *)
Definition ctable := list ((cell * cell) * nat).

Definition pair_eqb (p q : cell * cell) : bool :=
  cell_eqb p.1 q.1 && cell_eqb p.2 q.2.

Definition both_present (kv : cell * cell) : bool := notna kv.1 && notna kv.2.

(** [pd.crosstab(a, b)]: counts the rows in which neither value is missing. *)
Definition crosstab (a b : list cell) : ctable :=
  foldl (λ t kv, if both_present kv then bump_by pair_eqb kv 1 t else t)
        [] (zip a b).

Definition counts_total {A} (t : list (A * nat)) : nat := sum_list (t.*2).


(** ** Test results and the summary *)

Inductive test_result :=
| Chi2Result (chi2 p : spec_float) (dof : Z) (table : ctable)
| MWResult (U p : spec_float) (n_a n_b : nat)
| KWResult (H p : spec_float).

Record summary := {
  shapes : (nat * nat) * (nat * nat);
  means : gmap string spec_float;
  tests : gmap string test_result;
}.

(** ** Figures and the world the run acts on *)

Inductive plot_kind := Bar | Line | Scatter.

Record figure := {
  artists : list (plot_kind * list (cell * cell));
  title : option string;
  xlabel : option string;
  ylabel : option string;
}.

Definition new_figure : figure :=
  {| artists := []; title := None; xlabel := None; ylabel := None |}.

Record world := {
  figs : list figure;              (* open figures, the current one first *)
  saved : list (string * figure);  (* image files written *)
  made_dirs : list string;
  written : list (string * string);  (* text files written *)
}.

Definition empty_world : world :=
  {| figs := []; saved := []; made_dirs := []; written := [] |}.

(** ** Library routines *)

Class Libs := {
  (* Python runtime *)
  int_of_str : string → option Z;         (* int(s); None is ValueError *)
  float_repr : spec_float → string;       (* str(x) *)
  format_float : string → spec_float → string;  (* format(x, spec) *)
  format_shape : nat * nat → string;      (* str([rows, cols]) *)
  path_join : string → string → string;   (* os.path.join *)
  path_dirname : string → string;         (* os.path.dirname *)
  json_dumps : summary → string;
  makedirs_error : string → option exn;   (* os.makedirs(d, exist_ok=True) *)
  write_error : string → option exn;      (* open(p, 'w') and the write *)
  (* pandas *)
  read_csv : string → result DataFrame;
  parse_number : string → option (Z + spec_float);  (* for pd.to_numeric *)
  series_mean : list cell → spec_float;
  series_median : list cell → spec_float;
  plot_error : plot_kind → list (cell * cell) → option exn;
  (* scipy.stats *)
  chi2_contingency : ctable → result (spec_float * spec_float * Z);
  mannwhitneyu : list cell → list cell → result (spec_float * spec_float);
  stats_kruskal : list (list cell) → result (spec_float * spec_float);
  (* matplotlib.pyplot *)
  tight_layout_error : figure → option exn;
  savefig_error : string → figure → option exn;
}.

(** ** Computations that act on the world and may raise *)

Definition Run (A : Type) : Type := world → result A * world.

Definition ret {A} (a : A) : Run A := λ w, (Ok a, w).
Definition throw {A} (e : exn) : Run A := λ w, (Raise e, w).
Definition lift {A} (r : result A) : Run A := λ w, (r, w).
Definition bind {A B} (m : Run A) (k : A → Run B) : Run B :=
  λ w, match m w with
       | (Ok a, w') => k a w'
       | (Raise e, w') => (Raise e, w')
       end.
#[global] Instance Run_ret : MRet Run := @ret.
#[global] Instance Run_bind : MBind Run := λ A B k m, bind m k.
Definition modify (f : world → world) : Run unit := λ w, (Ok tt, f w).
Definition check (e : option exn) : Run unit :=
  match e with Some e => throw e | None => ret tt end.
Definition when (b : bool) (m : Run unit) : Run unit :=
  if b then m else ret tt.


(** ** utils.py *)

Section Pipeline.
Context `{Libs}.

(** [int(m)] *)
Definition py_int (m : cell) : result Z :=
  match m with
  | VInt z => Ok z
  | VFloat f => PyFloat.to_int f
  | VStr s => match int_of_str s with Some z => Ok z | None => Raise ValueError end
  | VNone => Raise TypeError
  end.

(** The calendar rule on an integer month: the two membership tests. *)
Definition season_of_int (m : Z) : option string :=
  if bool_decide (m ∈ [11; 12; 1; 2; 3; 4]) then Some "Wet"
  else if bool_decide (m ∈ [5; 6; 7; 8; 9; 10]) then Some "Dry"
  else None.

Definition dry_wet_from_month (m : cell) : result (option string) :=
  if isna m then Ok None
  else m ← py_int m; Ok (season_of_int m).

(** [pd.to_numeric(col, errors='coerce')]: numbers stay, strings are parsed,
    what does not parse is missing; the column is int64 when every cell is
    an integer and float64 otherwise. *)
Definition to_number (c : cell) : Z + spec_float :=
  match c with
  | VInt z => inl z
  | VFloat f => inr f
  | VStr s => default (inr PyFloat.nan) (parse_number s)
  | VNone => inr PyFloat.nan
  end.

Definition as_float (n : Z + spec_float) : spec_float :=
  match n with inl z => PyFloat.of_Z z | inr f => f end.

Definition is_int (n : Z + spec_float) : bool :=
  match n with inl _ => true | inr _ => false end.

Definition cell_of_number (n : Z + spec_float) : cell :=
  match n with inl z => VInt z | inr f => VFloat f end.

Definition to_numeric (col : list cell) : list cell :=
  let ns := to_number <$> col in
  if forallb is_int ns
  then cell_of_number <$> ns
  else (λ n, VFloat (as_float n)) <$> ns.

Definition coerce_numeric (df : DataFrame) (cs : list string) : DataFrame :=
  foldl (λ df c, match cols df !! c with
                 | Some col => setitem df c (to_numeric col)
                 | None => df
                 end) df cs.

(** [str(x)] of a cell, as [astype(str)] applies it *)
Definition astype_str (c : cell) : string :=
  match c with
  | VInt z => pretty z
  | VFloat f => float_repr f
  | VStr s => s
  | VNone => "None"
  end.

Definition season_codes : gmap string string :=
  {[ "0" := "Dry"; "1" := "Wet"; "dry" := "Dry"; "wet" := "Wet" ]}.

(** [s.map(d)] for a dict [d], on one element *)
Definition map_dict (d : gmap string string) (s : string) : cell :=
  match d !! s with Some v => VStr v | None => NaN end.

(** An existing season encoding, normalised and looked up:
    [astype(str).str.lower().str.strip()], then [map] with the codes. *)
Definition season_from_text (c : cell) : cell :=
  map_dict season_codes (str_strip (str_lower (astype_str c))).

(** [s.map(f)] for a function [f] returning a string or None *)
Definition series_map (f : cell → result (option string)) (col : list cell)
    : result (list cell) :=
  rmapM (λ c, r ← f c; Ok (from_option VStr VNone r)) col.

Definition standardise_dataset1 (df : DataFrame) : result DataFrame :=
  let df := coerce_numeric df
    ["risk"; "reward"; "seconds_after_rat_arrival"; "hours_after_sunset"; "month"] in
  df ← (if has_col df "season" then
          season ← getitem df "season";
          Ok (setitem df "season_dw" (season_from_text <$> season))
        else Ok (setitem_scalar df "season_dw" VNone));
  df ← (if has_col df "month" then
          month ← getitem df "month";
          dw ← series_map dry_wet_from_month month;
          season_dw ← getitem df "season_dw";
          Ok (setitem df "season_dw" (where_notna dw season_dw))
        else Ok df);
  season_dw ← getitem df "season_dw";
  let df := setitem df "season" season_dw in
  drop_col df "season_dw".

Definition standardise_dataset2 (df : DataFrame) : DataFrame :=
  coerce_numeric df
    ["hours_after_sunset"; "bat_landing_number"; "food_availability";
     "rat_minutes"; "rat_arrival_number"; "month"].

(** ** models.py *)

Definition chi_square (series_a series_b : list cell) : result test_result :=
  let ct := crosstab series_a series_b in
  '(chi2, p, dof) ← chi2_contingency ct;
  Ok (Chi2Result chi2 p dof ct).

Definition mann_whitney (a b : list cell) : result test_result :=
  '(u, p) ← mannwhitneyu a b;
  Ok (MWResult u p (length a) (length b)).

Definition kruskal (groups : list (list cell)) : result test_result :=
  '(h, p) ← stats_kruskal groups;
  Ok (KWResult h p).

(** ** eda.py *)

Definition set_figs (fs : list figure) (w : world) : world :=
  {| figs := fs; saved := saved w; made_dirs := made_dirs w; written := written w |}.

(** [os.makedirs(d, exist_ok=True)] *)
Definition os_makedirs (d : string) : Run unit :=
  check (makedirs_error d);;
  modify (λ w, {| figs := figs w; saved := saved w;
                  made_dirs := d :: made_dirs w; written := written w |}).

(** [plt.gcf()]: the current figure, opened first when there is none *)
Definition gcf : Run figure :=
  λ w, match figs w with
       | f :: _ => (Ok f, w)
       | [] => (Ok new_figure, set_figs [new_figure] w)
       end.

Definition plt_tight_layout : Run unit :=
  f ← gcf; check (tight_layout_error f).

Definition plt_savefig (path : string) : Run unit :=
  f ← gcf;
  check (savefig_error path f);;
  modify (λ w, {| figs := figs w; saved := (path, f) :: saved w;
                  made_dirs := made_dirs w; written := written w |}).

(** [plt.close()]: closes the current figure, if there is one *)
Definition plt_close : Run unit :=
  modify (λ w, set_figs (tail (figs w)) w).

Definition on_current (g : figure → figure) : Run unit :=
  modify (λ w, match figs w with
               | f :: fs => set_figs (g f :: fs) w
               | [] => w
               end).

Definition draw (k : plot_kind) (data : list (cell * cell)) (f : figure) : figure :=
  {| artists := artists f ++ [(k, data)]; title := title f;
     xlabel := xlabel f; ylabel := ylabel f |}.

(** [series.plot(kind=k)]: draws on the current axes, opening a figure when
    none is open *)
Definition series_plot (k : plot_kind) (data : list (cell * cell)) : Run unit :=
  check (plot_error k data);;
  _ ← gcf;
  on_current (draw k data).

(** [df.plot.scatter(x=.., y=..)]: draws on a figure of its own *)
Definition frame_scatter (data : list (cell * cell)) : Run unit :=
  check (plot_error Scatter data);;
  modify (λ w, set_figs (draw Scatter data new_figure :: figs w) w).

Definition set_title (t : string) : Run unit :=
  on_current (λ f, {| artists := artists f; title := Some t;
                      xlabel := xlabel f; ylabel := ylabel f |}).
Definition set_xlabel (t : string) : Run unit :=
  on_current (λ f, {| artists := artists f; title := title f;
                      xlabel := Some t; ylabel := ylabel f |}).
Definition set_ylabel (t : string) : Run unit :=
  on_current (λ f, {| artists := artists f; title := title f;
                      xlabel := xlabel f; ylabel := Some t |}).

Definition safe_savefig (path : string) : Run unit :=
  os_makedirs (path_dirname path);;
  plt_tight_layout;;
  plt_savefig path;;
  plt_close.

(** [df.groupby(k)[v].mean()] and [.median()]: one value per group *)
Definition grouped (agg : list cell → spec_float) (df : DataFrame) (k v : string)
    : result (list (cell * cell)) :=
  keys ← getitem df k;
  vals ← getitem df v;
  Ok ((λ g, (g.1, VFloat (agg g.2))) <$> groupby keys vals).

Definition load_clean (root : string) : result (DataFrame * DataFrame) :=
  d1 ← read_csv (path_join root "dataset1(1).csv");
  d2 ← read_csv (path_join root "dataset2(1).csv");
  d1 ← standardise_dataset1 d1;
  let d2 := standardise_dataset2 d2 in
  Ok (d1, d2).

Definition make_figures (d1 d2 : DataFrame) (fig_dir : string) : Run unit :=
  when (has_cols d1 ["season"; "risk"]) (
    data ← lift (grouped series_mean d1 "season" "risk");
    series_plot Bar data;;
    set_title "Risk by Season (Dry vs Wet)";;
    set_ylabel "Mean risk rate";;
    safe_savefig (path_join fig_dir "risk_by_season.png"));;
  when (has_cols d1 ["season"; "reward"]) (
    data ← lift (grouped series_mean d1 "season" "reward");
    series_plot Bar data;;
    set_title "Reward by Season (Dry vs Wet)";;
    set_ylabel "Mean reward rate";;
    safe_savefig (path_join fig_dir "reward_by_season.png"));;
  when (has_cols d1 ["risk"; "seconds_after_rat_arrival"]) (
    data ← lift (grouped series_median d1 "risk" "seconds_after_rat_arrival");
    series_plot Bar data;;
    set_title "Median Seconds After Rat Arrival by Risk Group";;
    set_ylabel "Median seconds";;
    safe_savefig (path_join fig_dir "sec_after_rat_by_risk.png"));;
  when (has_cols d1 ["risk"; "hours_after_sunset"]) (
    data ← lift (grouped series_mean d1 "risk" "hours_after_sunset");
    series_plot Bar data;;
    set_title "Mean Hours After Sunset by Risk Group";;
    set_ylabel "Mean hours";;
    safe_savefig (path_join fig_dir "hours_after_sunset_by_risk.png"));;
  when (has_cols d2 ["month"; "rat_arrival_number"]) (
    data ← lift (grouped series_mean d2 "month" "rat_arrival_number");
    series_plot Line data;;
    set_title "Rat Arrivals by Month";;
    set_xlabel "Month";;
    set_ylabel "Mean Rat Arrivals";;
    safe_savefig (path_join fig_dir "rat_arrivals_by_month.png"));;
  when (has_cols d2 ["hours_after_sunset"; "rat_arrival_number"]) (
    x ← lift (getitem d2 "hours_after_sunset");
    y ← lift (getitem d2 "rat_arrival_number");
    frame_scatter (zip x y);;
    set_title "Rat Arrivals vs Hours After Sunset";;
    safe_savefig (path_join fig_dir "rat_arrivals_vs_hours.png"));;
  when (has_cols d2 ["food_availability"; "rat_arrival_number"]) (
    x ← lift (getitem d2 "food_availability");
    y ← lift (getitem d2 "rat_arrival_number");
    frame_scatter (zip x y);;
    set_title "Rat Arrivals vs Food Availability";;
    safe_savefig (path_join fig_dir "rat_arrivals_vs_food.png")).

(** The mean rates of run_all. *)
Definition mean_rates (d1 : DataFrame) : result (gmap string spec_float) :=
  means ← (if has_col d1 "risk" then
             risk ← getitem d1 "risk"; Ok (<["risk" := series_mean risk]> ∅)
           else Ok ∅);
  if has_col d1 "reward" then
    reward ← getitem d1 "reward"; Ok (<["reward" := series_mean reward]> means)
  else Ok means.

(** The chi-square block of run_all: risk against reward. *)
Definition chi2_test (d1 : DataFrame) (tests : gmap string test_result)
    : result (gmap string test_result) :=
  if has_cols d1 ["risk"; "reward"] then
    risk ← getitem d1 "risk";
    reward ← getitem d1 "reward";
    t ← chi_square (fillna (-1) risk) (fillna (-1) reward);
    Ok (<["risk_vs_reward_chi2" := t]> tests)
  else Ok tests.

(** The two samples of the Mann-Whitney block. *)
Definition mw_samples (risk sec : list cell) : list cell * list cell :=
  (dropna (loc_eq risk (VInt 0) sec), dropna (loc_eq risk (VInt 1) sec)).

(** The Mann-Whitney block of run_all: seconds after rat arrival by risk. *)
Definition mw_test (d1 : DataFrame) (tests : gmap string test_result)
    : result (gmap string test_result) :=
  if has_cols d1 ["risk"; "seconds_after_rat_arrival"] then
    risk ← getitem d1 "risk";
    sec ← getitem d1 "seconds_after_rat_arrival";
    let '(a, b) := mw_samples risk sec in
    if (3 <? length a)%nat && (3 <? length b)%nat then
      t ← mann_whitney a b;
      Ok (<["sec_after_rat_by_risk_mw" := t]> tests)
    else Ok tests
  else Ok tests.

(** The Kruskal-Wallis block of run_all: rat arrivals across months. *)
Definition kw_test (d2 : DataFrame) (tests : gmap string test_result)
    : result (gmap string test_result) :=
  if has_col d2 "month" && has_col d2 "rat_arrival_number" then
    month ← getitem d2 "month";
    arrivals ← getitem d2 "rat_arrival_number";
    let groups := (λ g, dropna g.2) <$> groupby month arrivals in
    if (1 <? length groups)%nat && forallb (λ g, (2 <? length g)%nat) groups then
      t ← kruskal groups;
      Ok (<["rat_arrivals_kruskal_by_month" := t]> tests)
    else Ok tests
  else Ok tests.

(** The lines of quick_metrics.txt. *)
Definition quick_metrics (results : summary) : list string :=
  ["Quick Metrics"; "============="; EmptyString]
  ++ ["- Dataset1 shape: " +:+ format_shape (shapes results).1]
  ++ ["- Dataset2 shape: " +:+ format_shape (shapes results).2]
  ++ match means results !! "risk" with
     | Some m => ["- Mean risk rate: " +:+ format_float ".3f" m]
     | None => []
     end
  ++ match means results !! "reward" with
     | Some m => ["- Mean reward rate: " +:+ format_float ".3f" m]
     | None => []
     end
  ++ match tests results !! "risk_vs_reward_chi2" with
     | Some (Chi2Result chi2 p _ _) =>
         ["- Risk vs Reward chi2: " +:+ format_float ".2f" chi2
          +:+ " (p=" +:+ format_float ".3g" p +:+ ")"]
     | _ => []
     end.

Definition newline : string := String "010"%char EmptyString.

(** [with open(path, 'w') as f: f.write(content)] *)
Definition write_file (path content : string) : Run unit :=
  check (write_error path);;
  modify (λ w, {| figs := figs w; saved := saved w; made_dirs := made_dirs w;
                  written := (path, content) :: written w |}).

(** run_all, returning the summary it exports. *)
Definition run_all (root : string) : Run summary :=
  let figures := path_join root "figures" in
  '(d1, d2) ← lift (load_clean root);
  make_figures d1 d2 figures;;
  means ← lift (mean_rates d1);
  tests ← lift (chi2_test d1 ∅);
  tests ← lift (mw_test d1 tests);
  tests ← lift (kw_test d2 tests);
  let results := {| shapes := (shape d1, shape d2); means := means; tests := tests |} in
  write_file (path_join root "eda_summary.json") (json_dumps results);;
  write_file (path_join root "quick_metrics.txt")
             (String.concat newline (quick_metrics results));;
  mret results.

End Pipeline.

(** ** Notions the properties are stated with *)

(** A month value that lies below 1 or above 12, as a number. *)
Definition outside_1_12 (m : cell) : bool :=
  match m with
  | VInt z => (z <? 1) || (12 <? z)
  | VFloat f =>
      SFltb f (PyFloat.of_Z 1) || SFltb (PyFloat.of_Z 12) f
  | _ => false
  end.

(** The frame standardise_dataset1 works on once its columns are coerced. *)
Definition coerced1 `{Libs} (df : DataFrame) : DataFrame :=
  coerce_numeric df
    ["risk"; "reward"; "seconds_after_rat_arrival"; "hours_after_sunset"; "month"].

(** The season read from the season column, or no season at all. *)
Definition season_base `{Libs} (df : DataFrame) : list cell :=
  match cols df !! "season" with
  | Some s => season_from_text <$> s
  | None => replicate (nrows df) VNone
  end.

(** [df] with [s] as its season column and without the temporary column. *)
Definition with_season (df : DataFrame) (s : list cell) : DataFrame :=
  {| nrows := nrows df; cols := delete "season_dw" (<["season" := s]> (cols df)) |}.

(** The condition under which the Mann-Whitney test is run: both columns
    are there and each sample has more than 3 observations. *)
Definition mw_applies `{Libs} (d1 : DataFrame) : Prop :=
  ∃ risk sec,
    cols d1 !! "risk" = Some risk
    ∧ cols d1 !! "seconds_after_rat_arrival" = Some sec
    ∧ (3 < length (mw_samples risk sec).1)%nat
    ∧ (3 < length (mw_samples risk sec).2)%nat.

(** A computation that returns, whatever the world. *)
Definition returns {A} (m : Run A) : Prop := ∀ w, ∃ a w', m w = (Ok a, w').

(** A computation that removes no written image. *)
Definition keeps_saved {A} (m : Run A) : Prop :=
  ∀ w r w', m w = (r, w') → saved w ⊆ saved w'.

(** The figure [plt.gcf()] gives in a world. *)
Definition current_figure (w : world) : figure := hd new_figure (figs w).

(** No library routine raises. *)
Definition never_raise `{Libs} : Prop :=
  (∀ d, makedirs_error d = None)
  ∧ (∀ p, write_error p = None)
  ∧ (∀ k data, plot_error k data = None)
  ∧ (∀ f, tight_layout_error f = None)
  ∧ (∀ p f, savefig_error p f = None)
  ∧ (∀ t, is_ok (chi2_contingency t) = true)
  ∧ (∀ a b, is_ok (mannwhitneyu a b) = true)
  ∧ (∀ g, is_ok (stats_kruskal g) = true).

(** A value a derived season may take: "Dry", "Wet" or missing. *)
Definition season_value (c : cell) : Prop :=
  c = VStr "Dry" ∨ c = VStr "Wet" ∨ isna c = true.

(** A numeric cell. *)
Definition is_numeric (c : cell) : bool :=
  match c with VInt _ | VFloat _ => true | _ => false end.



(** A float that is an infinity. *)
Definition is_infinite (c : cell) : bool :=
  match c with VFloat (S754_infinity _) => true | _ => false end.

(** ** A stand-in for the libraries, to run the model on examples

    Decimal literals are parsed and printed exactly, files are a given list,
    means are computed; the statistics proper (chi-square, U, H and their
    p-values) are fixed numbers.  [bar_rejects_empty] makes a bar plot of
    no data raise, [save_fails] tells which image paths cannot be written. *)

Module Demo.

Definition digit (a : ascii) : option Z :=
  let n := Ascii.N_of_ascii a in
  if ((48 <=? n) && (n <=? 57))%N then Some (Z.of_N (n - 48)) else None.

Fixpoint digits_acc (s : string) (acc : Z) : option Z :=
  match s with
  | EmptyString => Some acc
  | String a s' => d ← digit a; digits_acc s' (10 * acc + d)
  end.

Definition nat_literal (s : string) : option Z :=
  match s with EmptyString => None | _ => digits_acc s 0 end.

Definition int_literal (s : string) : option Z :=
  match s with
  | String "-" s' => Z.opp <$> nat_literal s'
  | _ => nat_literal s
  end.

Fixpoint split_dot (s : string) : string * option string :=
  match s with
  | EmptyString => (EmptyString, None)
  | String "." s' => (EmptyString, Some s')
  | String a s' => let '(i, f) := split_dot s' in (String a i, f)
  end.

Definition float_div (n d : Z) : spec_float :=
  SFdiv PyFloat.prec PyFloat.emax (PyFloat.of_Z n) (PyFloat.of_Z d).

Definition unsigned_literal (s : string) : option (Z + spec_float) :=
  match split_dot s with
  | (i, None) => inl <$> nat_literal i
  | (i, Some f) =>
      i ← nat_literal i;
      n ← digits_acc f 0;
      let k := 10 ^ Z.of_nat (String.length f) in
      Some (inr (float_div (i * k + n) k))
  end.

Definition number_literal (s : string) : option (Z + spec_float) :=
  match s with
  | String "-" s' =>
      (λ n, match n with inl z => inl (- z) | inr f => inr (SFopp f) end)
        <$> unsigned_literal s'
  | _ => unsigned_literal s
  end.

Fixpoint frac_digits (fuel : nat) (r d : Z) : string :=
  match fuel with
  | O => EmptyString
  | S n =>
      if r =? 0 then EmptyString
      else String (Ascii.ascii_of_N (48 + Z.to_N (10 * r / d)))
                  (frac_digits n ((10 * r) mod d) d)
  end.

Definition repr (f : spec_float) : string :=
  match f with
  | S754_nan => "nan"
  | S754_infinity s => if s then "-inf" else "inf"
  | S754_zero s => if s then "-0.0" else "0.0"
  | S754_finite s _ _ =>
      let n := Z.abs (PyFloat.num f) in
      let d := PyFloat.den f in
      (if s then "-" else EmptyString) +:+ pretty (n / d) +:+ "."
      +:+ (if n mod d =? 0 then "0" else frac_digits 1100 (n mod d) d)
  end.

Fixpoint has_slash (s : string) : bool :=
  match s with
  | EmptyString => false
  | String a s' => bool_decide (a = "/"%char) || has_slash s'
  end.

Fixpoint dirname (s : string) : string :=
  match s with
  | EmptyString => EmptyString
  | String a s' => if has_slash s' then String a (dirname s') else EmptyString
  end.

Definition floats_of (col : list cell) : list spec_float :=
  omap (λ c, match c with
             | VInt z => Some (PyFloat.of_Z z)
             | VFloat f => if PyFloat.is_nan f then None else Some f
             | _ => None
             end) col.

Definition mean (col : list cell) : spec_float :=
  let xs := floats_of col in
  SFdiv PyFloat.prec PyFloat.emax
        (foldl (SFadd PyFloat.prec PyFloat.emax) (S754_zero false) xs)
        (PyFloat.of_Z (Z.of_nat (length xs))).

Fixpoint insert_sorted (x : spec_float) (l : list spec_float) : list spec_float :=
  match l with
  | [] => [x]
  | y :: l' => if SFleb x y then x :: l else y :: insert_sorted x l'
  end.

Definition median (col : list cell) : spec_float :=
  let xs := foldr insert_sorted [] (floats_of col) in
  let n := length xs in
  if Nat.even n then
    SFdiv PyFloat.prec PyFloat.emax
          (SFadd PyFloat.prec PyFloat.emax
                 (default S754_nan (xs !! (n / 2 - 1)%nat))
                 (default S754_nan (xs !! (n / 2)%nat)))
          (PyFloat.of_Z 2)
  else default S754_nan (xs !! (n / 2)%nat).

Definition libs (files : list (string * DataFrame)) (bar_rejects_empty : bool)
    (save_fails : string → bool) : Libs := {|
  int_of_str := int_literal;
  float_repr := repr;
  format_float := λ _, repr;
  format_shape := λ s, "[" +:+ pretty s.1 +:+ ", " +:+ pretty s.2 +:+ "]";
  path_join := λ a b, a +:+ "/" +:+ b;
  path_dirname := dirname;
  json_dumps := λ s, "{}";
  makedirs_error := λ _, None;
  write_error := λ _, None;
  read_csv := λ p, match list_to_map (M := gmap string DataFrame) files !! p with
                   | Some df => Ok df
                   | None => Raise (LibraryError "FileNotFoundError")
                   end;
  parse_number := number_literal;
  series_mean := mean;
  series_median := median;
  plot_error := λ k data,
    match k, data with
    | Bar, [] => if bar_rejects_empty then Some (LibraryError "IndexError") else None
    | _, _ => None
    end;
  chi2_contingency := λ t,
    match t with
    | [] => Raise (LibraryError "ValueError")
    | _ => Ok (S754_zero false, PyFloat.f1_0, 1)
    end;
  mannwhitneyu := λ _ _, Ok (S754_zero false, PyFloat.f1_0);
  stats_kruskal := λ _, Ok (S754_zero false, PyFloat.f1_0);
  tight_layout_error := λ _, None;
  savefig_error := λ p _, if save_fails p then Some (LibraryError "OSError") else None;
|}.

(** No files, nothing fails. *)
Definition quiet : Libs := libs [] false (λ _, false).

End Demo.

(** ** Example tables *)

Module Examples.

(** One column, with a code and an unparseable entry. *)
Definition coded_risk : DataFrame :=
  {| nrows := 2; cols := {[ "risk" := [VStr "0"; VStr "?"] ]} |}.

(** Raw month numbers, a free-form season column and a column that happens
    to be called season_dw. *)
Definition months_and_seasons : DataFrame :=
  {| nrows := 3;
     cols := {[ "month" := [VStr "12"; VStr "6"; VStr "13"];
                "season" := [VStr "dry"; VInt 1; VStr "summer"];
                "season_dw" := [VInt 0; VInt 0; VInt 0] ]} |}.

Definition months_and_seasons_std : DataFrame :=
  {| nrows := 3;
     cols := {[ "month" := [VInt 12; VInt 6; VInt 13];
                "season" := [VStr "Wet"; VStr "Dry"; NaN] ]} |}.



(** Dataset A as read from CSV: risk and reward indicators with a gap each,
    seconds after rat arrival, a month and season text. *)
Definition dataset1 : DataFrame :=
  {| nrows := 9;
     cols := {[ "risk" := [VFloat (S754_zero false); VFloat PyFloat.f1_0; NaN;
                           VFloat PyFloat.f1_0; VFloat (S754_zero false);
                           VFloat PyFloat.f1_0; VFloat (S754_zero false);
                           VFloat PyFloat.f1_0; VFloat (S754_zero false)];
                "reward" := [VStr "1"; VStr "1"; VStr "0"; VStr EmptyString; VStr "1";
                             VStr "0"; VStr "0"; VStr "1"; VStr "1"];
                "seconds_after_rat_arrival" :=
                  [VInt 10; VInt 20; VInt 30; VInt 40; VInt 50; VInt 60;
                   VInt 70; VInt 80; VInt 90];
                "month" := [VInt 12; VInt 12; VInt 1; VInt 1; VInt 5; VInt 5;
                            VInt 6; VInt 6; VInt 6];
                "season" := [VStr "dry"; VStr "wet"; VStr "wet"; VStr "wet";
                             VStr "dry"; VStr "dry"; VStr "dry"; VStr "dry";
                             VStr "dry"] ]} |}.

(** Dataset B: rat arrivals in two months. *)
Definition dataset2 : DataFrame :=
  {| nrows := 6;
     cols := {[ "month" := [VInt 1; VInt 1; VInt 1; VInt 2; VInt 2; VInt 2];
                "rat_arrival_number" := [VInt 0; VInt 2; VInt 1; VInt 3; VInt 0; VInt 1] ]} |}.

(** Two indicators after coercion, the first with a gap. *)
Definition indicators : DataFrame :=
  {| nrows := 4;
     cols := {[ "risk" := [VFloat (S754_zero false); NaN; VFloat PyFloat.f1_0;
                           VFloat PyFloat.f1_0];
                "reward" := [VInt 1; VInt 0; VInt 1; VInt 1] ]} |}.

(** Dataset A with a risk column only. *)
Definition risk_only : DataFrame :=
  {| nrows := 2; cols := {[ "risk" := [VInt 1; VInt 0] ]} |}.

Definition files : list (string * DataFrame) :=
  [("data/dataset1(1).csv", dataset1); ("data/dataset2(1).csv", dataset2)].

Definition files_risk_only : list (string * DataFrame) :=
  [("data/dataset1(1).csv", risk_only); ("data/dataset2(1).csv", dataset2)].

(** Libraries that read these files; no routine raises. *)
Definition libs : Libs := Demo.libs files false (λ _, false).

(** The same with the risk-only Dataset A. *)
Definition libs_risk_only : Libs := Demo.libs files_risk_only false (λ _, false).

(** The same, where a bar plot of no data raises, as pandas' does. *)
Definition libs_risk_only_strict : Libs := Demo.libs files_risk_only true (λ _, false).

(** Libraries with which no image can be written. *)
Definition libs_no_save : Libs := Demo.libs [] false (λ _, true).

(** A world with one open figure. *)
Definition one_figure : world :=
  {| figs := [new_figure]; saved := []; made_dirs := []; written := [] |}.

End Examples.

(** ** Further notions *)

(** The samples of the Kruskal-Wallis block: per month, the non-missing
    arrivals. *)
Definition kw_groups (month arrivals : list cell) : list (list cell) :=
  (λ g, dropna g.2) <$> groupby month arrivals.


(** Rows whose non-missing keys are all equal. *)
Definition same_key (l : list (cell * cell)) : Prop :=
  ∀ x y, x ∈ l → y ∈ l → notna x.1 = true → notna y.1 = true →
         cell_eqb x.1 y.1 = true.

(** The gates of make_figures with the images they guard, in source order. *)
Definition figure_rules `{Libs} (d1 d2 : DataFrame) (fig_dir : string)
    : list (bool * string) :=
  [ (has_cols d1 ["season"; "risk"], path_join fig_dir "risk_by_season.png");
    (has_cols d1 ["season"; "reward"], path_join fig_dir "reward_by_season.png");
    (has_cols d1 ["risk"; "seconds_after_rat_arrival"],
     path_join fig_dir "sec_after_rat_by_risk.png");
    (has_cols d1 ["risk"; "hours_after_sunset"],
     path_join fig_dir "hours_after_sunset_by_risk.png");
    (has_cols d2 ["month"; "rat_arrival_number"],
     path_join fig_dir "rat_arrivals_by_month.png");
    (has_cols d2 ["hours_after_sunset"; "rat_arrival_number"],
     path_join fig_dir "rat_arrivals_vs_hours.png");
    (has_cols d2 ["food_availability"; "rat_arrival_number"],
     path_join fig_dir "rat_arrivals_vs_food.png") ].

(** The images whose gate is open. *)
Definition images_due (rules : list (bool * string)) : list string :=
  (List.filter fst rules).*2.

(** A computation that writes no text file, however it ends. *)
Definition keeps_written {A} (m : Run A) : Prop :=
  ∀ w r w', m w = (r, w') → written w' = written w.

(** A figure that shows exactly one plot. *)
Definition single_plot (f : figure) : Prop := length (artists f) = 1%nat.

(** What one gated block of make_figures does when it starts with no open
    figure and returns: no figure is left open, no text file is written, and
    when the gate is open image [p] has been written, showing one plot. *)
Definition block_spec (b : bool) (p : string) (m : Run unit) : Prop :=
  ∀ w w', figs w = [] → m w = (Ok tt, w') →
    figs w' = [] ∧ written w' = written w
    ∧ if b then ∃ f, saved w' = (p, f) :: saved w ∧ single_plot f
      else saved w' = saved w.

(** The same for a sequence of gated blocks. *)
Definition seq_spec (rules : list (bool * string)) (m : Run unit) : Prop :=
  ∀ w w', figs w = [] → m w = (Ok tt, w') →
    figs w' = [] ∧ written w' = written w
    ∧ ∃ new, saved w' = new ++ saved w
             ∧ new.*1 = rev (images_due rules)
             ∧ Forall (λ pf, single_plot pf.2) new.

Module MoreExamples.

(** Dataset B with arrivals in a single month. *)
Definition one_month : DataFrame :=
  {| nrows := 4;
     cols := {[ "month" := [VInt 3; VInt 3; NaN; VInt 3];
                "rat_arrival_number" := [VInt 0; VInt 2; VInt 1; VInt 3] ]} |}.

(** Dataset A whose month column holds an infinity. *)
Definition infinite_month : DataFrame :=
  {| nrows := 2;
     cols := {[ "month" := [VInt 3; VFloat PyFloat.inf];
                "risk" := [VInt 0; VInt 1] ]} |}.

(** Two series with a gap in the second. *)
Definition gappy_a : list cell := [VInt 0; VInt 1; VInt 1].
Definition gappy_b : list cell := [VInt 1; NaN; VInt 0].

(** The run on the example files, evaluated once: its summary and the
    world it leaves. *)
Definition run_summary : summary :=
  Eval vm_compute in
    match (run_all (H := Examples.libs) "data" empty_world).1 with
    | Ok s => s
    | Raise _ => {| shapes := ((0, 0), (0, 0))%nat; means := ∅; tests := ∅ |}
    end.
Definition run_world : world :=
  Eval vm_compute in (run_all (H := Examples.libs) "data" empty_world).2.

(** The world make_figures leaves on two small tables. *)
Definition figures_world : world :=
  Eval vm_compute in
    (make_figures (H := Examples.libs) Examples.indicators Examples.dataset2
       "figures" empty_world).2.

End MoreExamples.

(** * Properties *)

(** An outcome that evaluation settles excludes the other one. *)
Ltac settled_by_evaluation Hrun :=
  let Hok := fresh "Hok" in
  match type of Hrun with
  | ?r = (Raise _, _) => assert (is_ok r.1 = true) as Hok by reflexivity
  | ?r = Ok _ => assert (is_ok r = false) as Hok by reflexivity
  end;
  rewrite Hrun in Hok; discriminate Hok.

(** ** Floats and [int] *)

Lemma pow2_pos (k : positive) : 0 < 2 ^ Z.pos k.
Proof. apply Z.pow_pos_nonneg; lia. Qed.

Lemma trunc_mag_quot s m e :
  PyFloat.trunc_mag m e
  = Z.quot (Z.abs (PyFloat.num (S754_finite s m e))) (PyFloat.den (S754_finite s m e)).
Proof.
  destruct e as [|k|k]; simpl PyFloat.den; unfold PyFloat.num, PyFloat.trunc_mag.
  - destruct s; rewrite ?Z.abs_opp; simpl Z.abs; by rewrite Z.quot_1_r.
  - rewrite Z.shiftl_mul_pow2 by lia. pose proof (pow2_pos k).
    destruct s; rewrite ?Z.abs_opp, Z.quot_1_r; symmetry; apply Z.abs_eq;
      apply Z.mul_nonneg_nonneg; lia.
  - rewrite Z.shiftr_div_pow2 by lia. pose proof (pow2_pos k).
    destruct s; rewrite ?Z.abs_opp; simpl Z.abs; rewrite Z.quot_div_nonneg; done || lia.
Qed.

(** [int] of a finite float is its value cut toward zero. *)
Lemma to_int_finite (x : spec_float) :
  PyFloat.is_finite x = true →
  PyFloat.to_int x = Ok (Z.quot (PyFloat.num x) (PyFloat.den x)).
Proof.
  destruct x as [s|s| |s m e]; try discriminate; intros _; [done|].
  simpl PyFloat.to_int. rewrite (trunc_mag_quot s). f_equal.
  assert (0 < PyFloat.den (S754_finite s m e)).
  { destruct e; unfold PyFloat.den; [lia|lia|apply pow2_pos]. }
  assert (0 ≤ Z.abs (PyFloat.num (S754_finite s m e))) by apply Z.abs_nonneg.
  destruct s.
  - assert (PyFloat.num (S754_finite true m e) ≤ 0).
    { unfold PyFloat.num. destruct e as [|p|p]; try lia;
        pose proof (pow2_pos p);
        assert (0 ≤ Z.pos m * 2 ^ Z.pos p) by (apply Z.mul_nonneg_nonneg; lia); lia. }
    rewrite Z.abs_neq by done. rewrite Z.quot_opp_l by lia. lia.
  - assert (0 ≤ PyFloat.num (S754_finite false m e)).
    { unfold PyFloat.num. destruct e as [|p|p]; try lia;
        pose proof (pow2_pos p); apply Z.mul_nonneg_nonneg; lia. }
    by rewrite Z.abs_eq.
Qed.

(** The float literals are the binary64 values of their decimal names. *)
Example float_literals :
  Demo.number_literal "0.5" = Some (inr PyFloat.f0_5)
  ∧ Demo.number_literal "1.0" = Some (inr PyFloat.f1_0)
  ∧ Demo.number_literal "3.5" = Some (inr PyFloat.f3_5)
  ∧ Demo.number_literal "4.9" = Some (inr PyFloat.f4_9)
  ∧ Demo.number_literal "10.5" = Some (inr PyFloat.f10_5)
  ∧ Demo.number_literal "12.0" = Some (inr PyFloat.f12_0)
  ∧ Demo.number_literal "12.5" = Some (inr PyFloat.f12_5).
Proof. by vm_compute. Qed.

(** Equality with a positive finite float is syntactic. *)
Lemma float_eqb_finite x m e :
  PyFloat.eqb x (S754_finite false m e) = true → x = S754_finite false m e.
Proof.
  unfold PyFloat.eqb, SFeqb, SFcompare.
  destruct x as [s|s| |s m' e']; try discriminate; try (destruct s; discriminate).
  destruct s; [discriminate|].
  destruct (Z.compare_spec e' e) as [->| |]; try discriminate.
  destruct (Pos.compare_cont Eq m' m) eqn:E; try discriminate.
  apply Pos.compare_eq in E. by subst.
Qed.

Lemma float_eqb_neg_finite x m e :
  PyFloat.eqb x (S754_finite true m e) = true → x = S754_finite true m e.
Proof.
  unfold PyFloat.eqb, SFeqb, SFcompare.
  destruct x as [s|s| |s m' e']; try discriminate; try (destruct s; discriminate).
  destruct s; [|discriminate].
  destruct (Z.compare_spec e' e) as [->| |]; try discriminate.
  destruct (Pos.compare_cont Eq m' m) eqn:E; try discriminate.
  apply Pos.compare_eq in E. by subst.
Qed.

Lemma float_eqb_zero x :
  PyFloat.eqb x (S754_zero false) = true → ∃ s, x = S754_zero s.
Proof.
  unfold PyFloat.eqb, SFeqb, SFcompare.
  destruct x as [s|s| |s m' e']; try discriminate; try discriminate; try (destruct s; discriminate). eauto.
Qed.

(** ** The calendar rule *)

Section SeasonRule.
Context `{Libs}.

Lemma season_of_int_cases (z : Z) :
  season_of_int z =
    if bool_decide (z ∈ [11; 12; 1; 2; 3; 4]) then Some "Wet"
    else if bool_decide (5 ≤ z ≤ 10) then Some "Dry" else None.
Proof.
  unfold season_of_int. case_bool_decide; [done|].
  repeat case_bool_decide; try done; exfalso.
  - set_unfold. lia.
  - set_unfold. lia.
Qed.

Lemma season_of_int_outside (z : Z) : ¬ (1 ≤ z ≤ 12) → season_of_int z = None.
Proof.
  intros Hz. unfold season_of_int.
  repeat case_bool_decide; try done; set_unfold; lia.
Qed.

(** A cell that equals the integer [k], 1 <= k <= 12, is not missing and
    its [int] is [k]. *)
Lemma month_eq_int (m : cell) (k : Z) :
  1 ≤ k ≤ 12 → cell_eqb m (VInt k) = true → isna m = false ∧ py_int m = Ok k.
Proof.
  intros Hk Heq. destruct m as [z|f| |]; simpl in Heq; try discriminate.
  - apply Z.eqb_eq in Heq. by subst.
  - assert (k ∈ [1; 2; 3; 4; 5; 6; 7; 8; 9; 10; 11; 12]) as Hin by (set_unfold; lia).
    repeat (apply elem_of_cons in Hin as [->|Hin]);
      [..|by apply elem_of_nil in Hin];
      apply float_eqb_finite in Heq; by subst.
Qed.

Lemma dry_wet_from_month_int (m : cell) (z : Z) :
  isna m = false → py_int m = Ok z → dry_wet_from_month m = Ok (season_of_int z).
Proof. intros Hna Hz. unfold dry_wet_from_month. by rewrite Hna, Hz. Qed.

Lemma dry_wet_from_month_values (m : cell) (r : option string) :
  dry_wet_from_month m = Ok r → r = Some "Wet" ∨ r = Some "Dry" ∨ r = None.
Proof.
  unfold dry_wet_from_month. destruct (isna m); [naive_solver|].
  destruct (py_int m) as [z|e]; simpl; [|done]. unfold season_of_int.
  repeat case_bool_decide; naive_solver.
Qed.

End SeasonRule.

(** ** Claims about the calendar rule *)

(** C1, as stated, fails: the month 12.5 lies outside 1-12, is not missing,
    and its season is "Wet", not missing. *)
Lemma month_outside_range_not_missing :
  ¬ (∀ (L : Libs) (m : cell),
       isna m = false → outside_1_12 m = true → dry_wet_from_month m = Ok None).
Proof.
  intros Hclaim.
  specialize (Hclaim Demo.quiet (VFloat PyFloat.f12_5)).
  vm_compute in Hclaim. by specialize (Hclaim eq_refl eq_refl).
Qed.

(** C1 (amended): a month equal to one of 11, 12, 1, 2, 3, 4 gives "Wet", one
    equal to one of 5..10 gives "Dry"; a missing month gives missing, and so
    does a month whose integer part int(m) is outside 1..12, the integer part
    of a finite float being its value cut toward zero. *)
Theorem dry_wet_from_month_rule `{Libs} (m : cell) :
  (∀ k, k ∈ [11; 12; 1; 2; 3; 4] → cell_eqb m (VInt k) = true →
     dry_wet_from_month m = Ok (Some "Wet"))
  ∧ (∀ k, k ∈ [5; 6; 7; 8; 9; 10] → cell_eqb m (VInt k) = true →
     dry_wet_from_month m = Ok (Some "Dry"))
  ∧ (isna m = true → dry_wet_from_month m = Ok None)
  ∧ (∀ z, isna m = false → py_int m = Ok z → ¬ (1 ≤ z ≤ 12) →
     dry_wet_from_month m = Ok None)
  ∧ (∀ x, m = VFloat x → PyFloat.is_finite x = true →
     py_int m = Ok (Z.quot (PyFloat.num x) (PyFloat.den x))).
Proof.
  repeat split.
  - intros k Hk Heq.
    destruct (month_eq_int m k) as [Hna Hint]; [set_unfold; lia|done|].
    rewrite (dry_wet_from_month_int m k Hna Hint), season_of_int_cases.
    by rewrite bool_decide_eq_true_2.
  - intros k Hk Heq.
    destruct (month_eq_int m k) as [Hna Hint]; [set_unfold; lia|done|].
    rewrite (dry_wet_from_month_int m k Hna Hint), season_of_int_cases.
    rewrite bool_decide_eq_false_2 by (set_unfold; lia).
    rewrite bool_decide_eq_true_2 by (set_unfold; lia). done.
  - intros Hna. unfold dry_wet_from_month. by rewrite Hna.
  - intros z Hna Hint Hz.
    by rewrite (dry_wet_from_month_int m z Hna Hint), season_of_int_outside.
  - intros x -> Hfin. by apply to_int_finite.
Qed.

Lemma dry_wet_from_month_rule_witness :
  dry_wet_from_month (H := Demo.libs [] false (λ _, false)) (VFloat PyFloat.f12_0)
    = Ok (Some "Wet")
  ∧ dry_wet_from_month (H := Demo.libs [] false (λ _, false)) (VInt 7) = Ok (Some "Dry")
  ∧ dry_wet_from_month (H := Demo.libs [] false (λ _, false)) NaN = Ok None
  ∧ dry_wet_from_month (H := Demo.libs [] false (λ _, false)) (VFloat PyFloat.f0_5)
    = Ok None.
Proof.
  pose (L := Demo.libs [] false (λ _, false)).
  split; [|split; [|split]].
  - apply (proj1 (@dry_wet_from_month_rule L (VFloat PyFloat.f12_0)) 12).
    + set_solver.
    + reflexivity.
  - apply (proj1 (proj2 (@dry_wet_from_month_rule L (VInt 7))) 7).
    + set_solver.
    + reflexivity.
  - apply (proj1 (proj2 (proj2 (@dry_wet_from_month_rule L NaN)))). reflexivity.
  - apply (proj1 (proj2 (proj2 (proj2 (@dry_wet_from_month_rule L (VFloat PyFloat.f0_5))))) 0).
    + reflexivity.
    + reflexivity.
    + lia.
Defined.

(** C10: season derivation classifies the integer part int(m) of a
    non-missing month: when int(m) is z the season is the calendar rule at z
    (and when int(m) raises, so does the derivation); for a finite float,
    int(m) is the value cut toward zero, so 4.9 gives "Wet", 10.5 gives
    "Dry" and 0.5, whose integer part is 0, gives missing. *)
Theorem dry_wet_from_month_truncates `{Libs} :
  (∀ m z, isna m = false → py_int m = Ok z →
     dry_wet_from_month m = Ok (season_of_int z))
  ∧ (∀ m e, isna m = false → py_int m = Raise e → dry_wet_from_month m = Raise e)
  ∧ (∀ x, PyFloat.is_finite x = true →
       dry_wet_from_month (VFloat x)
       = Ok (season_of_int (Z.quot (PyFloat.num x) (PyFloat.den x))))
  ∧ dry_wet_from_month (VFloat PyFloat.f4_9) = Ok (Some "Wet")
  ∧ dry_wet_from_month (VFloat PyFloat.f10_5) = Ok (Some "Dry")
  ∧ dry_wet_from_month (VFloat PyFloat.f0_5) = Ok None.
Proof.
  split; [|split; [|split]].
  - apply dry_wet_from_month_int.
  - intros m e Hna He. unfold dry_wet_from_month. by rewrite Hna, He.
  - intros x Hfin. apply dry_wet_from_month_int.
    + by destruct x.
    + by apply to_int_finite.
  - done.
Qed.

Lemma dry_wet_from_month_truncates_witness :
  dry_wet_from_month (H := Demo.libs [] false (λ _, false)) (VFloat PyFloat.f4_9)
    = Ok (season_of_int 4)
  ∧ dry_wet_from_month (H := Demo.libs [] false (λ _, false)) (VFloat PyFloat.inf)
    = Raise OverflowError
  ∧ dry_wet_from_month (H := Demo.libs [] false (λ _, false)) (VFloat PyFloat.f12_5)
    = Ok (season_of_int (Z.quot 25 2)).
Proof.
  pose (L := Demo.libs [] false (λ _, false)).
  split; [|split].
  - apply (proj1 (@dry_wet_from_month_truncates L) (VFloat PyFloat.f4_9) 4);
      reflexivity.
  - apply (proj1 (proj2 (@dry_wet_from_month_truncates L)) (VFloat PyFloat.inf));
      reflexivity.
  - apply (proj1 (proj2 (proj2 (@dry_wet_from_month_truncates L))) PyFloat.f12_5).
    reflexivity.
Defined.

(** ** Numeric coercion *)

Section Coercion.
Context `{Libs}.

Lemma to_numeric_unfold (col : list cell) :
  to_numeric col =
    if forallb is_int (to_number <$> col)
    then cell_of_number <$> (to_number <$> col)
    else (λ n, VFloat (as_float n)) <$> (to_number <$> col).
Proof. done. Qed.

Lemma to_number_of_number n : to_number (cell_of_number n) = n.
Proof. by destruct n. Qed.

Lemma to_numeric_length (col : list cell) : length (to_numeric col) = length col.
Proof.
  rewrite to_numeric_unfold. destruct (forallb _ _); by rewrite !length_fmap.
Qed.

Lemma to_numeric_is_numeric (col : list cell) :
  Forall (λ x, is_numeric x = true) (to_numeric col).
Proof.
  rewrite to_numeric_unfold. destruct (forallb _ _); apply Forall_fmap, Forall_true.
  - by intros [].
  - done.
Qed.

(** Each cell becomes its number, as an integer in an int64 column and as a
    float in a float64 column. *)
Lemma to_numeric_lookup (col : list cell) (i : nat) (c : cell) :
  col !! i = Some c →
  to_numeric col !! i = Some (cell_of_number (to_number c))
  ∨ to_numeric col !! i = Some (VFloat (as_float (to_number c))).
Proof.
  intros Hi. rewrite to_numeric_unfold.
  destruct (forallb _ _); [left|right]; by rewrite !list_lookup_fmap, Hi.
Qed.

(** A cell without a number becomes the missing marker. *)
Lemma to_numeric_lookup_nan (col : list cell) (i : nat) (c : cell) :
  col !! i = Some c → to_number c = inr PyFloat.nan →
  to_numeric col !! i = Some NaN.
Proof.
  intros Hi Hc. destruct (to_numeric_lookup col i c Hi) as [->| ->]; by rewrite Hc.
Qed.

Lemma forallb_is_int_float (ns : list (Z + spec_float)) :
  forallb is_int ((λ n, inr (as_float n)) <$> ns) = true → ns = [].
Proof. by destruct ns. Qed.

Lemma to_numeric_idemp (col : list cell) : to_numeric (to_numeric col) = to_numeric col.
Proof.
  rewrite (to_numeric_unfold (to_numeric col)), (to_numeric_unfold col).
  generalize (to_number <$> col). intros ns.
  destruct (forallb is_int ns) eqn:Hint.
  - assert (to_number <$> (cell_of_number <$> ns) = ns) as ->.
    { rewrite <-list_fmap_compose. rewrite <-(list_fmap_id ns) at 2.
      apply list_fmap_ext. intros ? n _. apply to_number_of_number. }
    by rewrite Hint.
  - assert (to_number <$> ((λ n, VFloat (as_float n)) <$> ns)
            = (λ n, inr (as_float n)) <$> ns) as ->.
    { by rewrite <-list_fmap_compose. }
    destruct (forallb is_int ((λ n, inr (as_float n)) <$> ns)) eqn:Hint'.
    + apply forallb_is_int_float in Hint'. by subst.
    + by rewrite <-list_fmap_compose.
Qed.

Lemma coerce_numeric_nrows (df : DataFrame) (cs : list string) :
  nrows (coerce_numeric df cs) = nrows df.
Proof.
  unfold coerce_numeric. revert df. induction cs as [|a cs IH]; intros df; [done|].
  simpl. rewrite IH. by destruct (cols df !! a).
Qed.

Lemma coerce_numeric_lookup (df : DataFrame) (cs : list string) (c : string) :
  cols (coerce_numeric df cs) !! c =
    if decide (c ∈ cs) then to_numeric <$> cols df !! c else cols df !! c.
Proof.
  unfold coerce_numeric. revert df. induction cs as [|a cs IH]; intros df.
  - cbn [foldl]. rewrite decide_False; [done|]. apply not_elem_of_nil.
  - cbn [foldl]. rewrite IH. destruct (decide (a = c)) as [->|Hne].
    + rewrite (decide_True (P := c ∈ c :: cs)) by (apply elem_of_cons; by left).
      destruct (cols df !! c) eqn:E; simpl.
      * rewrite lookup_insert_eq. simpl. case_decide; by rewrite ?to_numeric_idemp.
      * rewrite E. by case_decide.
    + assert (cols (match cols df !! a with
                    | Some col => setitem df a (to_numeric col)
                    | None => df
                    end) !! c = cols df !! c) as ->.
      { destruct (cols df !! a); simpl; by rewrite ?lookup_insert_ne. }
      destruct (decide (c ∈ cs)) as [Hin|Hin].
      * rewrite decide_True; [done|]. apply elem_of_cons. by right.
      * rewrite decide_False; [done|]. rewrite elem_of_cons. by intros [->|?].
Qed.

Lemma coerce_numeric_has_col (df : DataFrame) (cs : list string) (c : string) :
  has_col (coerce_numeric df cs) c = has_col df c.
Proof.
  unfold has_col. rewrite coerce_numeric_lookup.
  case_decide; [|done]. by destruct (cols df !! c).
Qed.

Lemma coerce_numeric_wf (df : DataFrame) (cs : list string) :
  wf_frame df → wf_frame (coerce_numeric df cs).
Proof.
  intros Hwf c col. unfold column_fits.
  rewrite coerce_numeric_lookup, coerce_numeric_nrows.
  case_decide; [|apply Hwf].
  destruct (cols df !! c) as [col'|] eqn:E; simpl; [|done].
  intros [= <-]. rewrite to_numeric_length. by apply (Hwf c).
Qed.

End Coercion.

(** ** Season standardisation *)

Section Standardise.
Context `{Libs}.

Lemma rmapM_ok {A B} (f : A → result B) (l : list A) (bs : list B) :
  rmapM f l = Ok bs →
  length bs = length l ∧ ∀ i a, l !! i = Some a → ∃ b, f a = Ok b ∧ bs !! i = Some b.
Proof.
  revert bs. induction l as [|a l IH]; intros bs; simpl.
  - intros [= <-]. split; [done|]. by intros i a.
  - destruct (f a) as [b|e] eqn:Hfa; simpl; [|done].
    destruct (rmapM f l) as [bs'|e] eqn:Hl; simpl; [|done].
    intros [= <-]. destruct (IH bs' eq_refl) as [Hlen Hi].
    split; [simpl; by rewrite Hlen|].
    intros [|i] a'; simpl; [intros [= <-]; eauto|apply Hi].
Qed.

Lemma rmapM_returns {A B} (f : A → result B) (l : list A) :
  Forall (λ a, is_ok (f a) = true) l → is_ok (rmapM f l) = true.
Proof.
  induction 1 as [|a l Ha _ IH]; simpl; [done|].
  destruct (f a); [|done]. simpl. by destruct (rmapM f l).
Qed.

Lemma series_map_ok f (col dw : list cell) :
  series_map f col = Ok dw →
  length dw = length col
  ∧ ∀ i c, col !! i = Some c →
      ∃ r, f c = Ok r ∧ dw !! i = Some (from_option VStr VNone r).
Proof.
  intros Hm. apply rmapM_ok in Hm as [Hlen Hi]. split; [done|].
  intros i c Hc. destruct (Hi i c Hc) as (b & Hb & Hdw).
  destruct (f c) as [r|]; simpl in Hb; [|done]. injection Hb as <-. eauto.
Qed.


Lemma season_codes_values (s v : string) :
  season_codes !! s = Some v → v = "Dry" ∨ v = "Wet".
Proof.
  unfold season_codes. intros Hs.
  repeat (apply lookup_insert_Some in Hs as [[_ <-]|[_ Hs]]; [by auto|]).
  apply lookup_singleton_Some in Hs as [_ <-]. by auto.
Qed.

Lemma season_from_text_value (c : cell) : season_value (season_from_text c).
Proof.
  unfold season_from_text, map_dict, season_value.
  destruct (season_codes !! _) as [v|] eqn:Hv; [|by auto].
  apply season_codes_values in Hv as [-> | ->]; auto.
Qed.

Lemma dry_wet_cell_value (r : option string) (m : cell) :
  dry_wet_from_month m = Ok r → season_value (from_option VStr VNone r).
Proof.
  intros Hr. unfold season_value.
  apply dry_wet_from_month_values in Hr as [-> | [-> | ->]]; simpl; auto.
Qed.

Lemma with_season_intro (df : DataFrame) (x y : list cell) m :
  m = <["season_dw" := x]> (cols df) ∨ m = <["season_dw" := x]> (<["season_dw" := y]> (cols df)) →
  delete "season_dw" (<["season" := x]> m) = cols (with_season df x).
Proof.
  intros Hm. simpl. apply map_eq. intros k.
  destruct (decide (k = "season_dw")) as [->|Hdw].
  { by rewrite !lookup_delete_eq. }
  rewrite !lookup_delete_ne by done.
  destruct (decide (k = "season")) as [->|Hs].
  { by rewrite !lookup_insert_eq. }
  rewrite !lookup_insert_ne by done.
  destruct Hm as [-> | ->]; by rewrite !lookup_insert_ne.
Qed.

(** standardise_dataset1 in one step: coercion, then the season column is
    the month-derived season where there is one and the season read from
    the season column elsewhere. *)
Lemma standardise_dataset1_unfold (df : DataFrame) :
  standardise_dataset1 df =
    match cols (coerced1 df) !! "month" with
    | Some month =>
        dw ← series_map dry_wet_from_month month;
        Ok (with_season (coerced1 df) (where_notna dw (season_base (coerced1 df))))
    | None => Ok (with_season (coerced1 df) (season_base (coerced1 df)))
    end.
Proof.
  unfold standardise_dataset1. fold (coerced1 df). generalize (coerced1 df). intros d.
  unfold season_base, has_col, getitem, setitem_scalar, setitem, drop_col.
  destruct (cols d !! "season") as [s|] eqn:Hs; simpl.
  - rewrite lookup_insert_ne by done.
    destruct (cols d !! "month") as [m|] eqn:Hm; simpl.
    + rewrite lookup_insert_eq. simpl.
      destruct (series_map dry_wet_from_month m) as [dw|e]; simpl; [|done].
      rewrite !lookup_insert_eq. simpl. rewrite lookup_insert_ne by done.
      rewrite lookup_insert_eq. unfold with_season. do 2 f_equal.
      eapply with_season_intro. by right.
    + rewrite !lookup_insert_eq. simpl. rewrite lookup_insert_ne by done.
      rewrite lookup_insert_eq. unfold with_season. do 2 f_equal.
      apply (with_season_intro _ _ []). by left.
  - rewrite lookup_insert_ne by done.
    destruct (cols d !! "month") as [m|] eqn:Hm; simpl.
    + rewrite lookup_insert_eq. simpl.
      destruct (series_map dry_wet_from_month m) as [dw|e]; simpl; [|done].
      rewrite !lookup_insert_eq. simpl. rewrite lookup_insert_ne by done.
      rewrite lookup_insert_eq. unfold with_season. do 2 f_equal.
      eapply with_season_intro. by right.
    + rewrite !lookup_insert_eq. simpl. rewrite lookup_insert_ne by done.
      rewrite lookup_insert_eq. unfold with_season. do 2 f_equal.
      apply (with_season_intro _ _ []). by left.
Qed.

End Standardise.

Section StandardiseFacts.
Context `{Libs}.

Lemma coerced1_dom (df : DataFrame) : dom (cols (coerced1 df)) = dom (cols df).
Proof.
  apply set_eq. intros k. rewrite !elem_of_dom. unfold coerced1.
  rewrite coerce_numeric_lookup. case_decide; [|done].
  destruct (cols df !! k); simpl; split; intros [? ?]; by eauto.
Qed.

Lemma coerced1_season (df : DataFrame) :
  cols (coerced1 df) !! "season" = cols df !! "season".
Proof.
  unfold coerced1. rewrite coerce_numeric_lookup. rewrite decide_False; [done|].
  rewrite !elem_of_cons, elem_of_nil. by intros [?|[?|[?|[?|[?|?]]]]].
Qed.

Lemma coerced1_month (df : DataFrame) :
  cols (coerced1 df) !! "month" = to_numeric <$> cols df !! "month".
Proof.
  unfold coerced1. rewrite coerce_numeric_lookup. rewrite decide_True; [done|].
  rewrite !elem_of_cons. auto 10.
Qed.

Lemma with_season_lookup (df : DataFrame) (s : list cell) :
  cols (with_season df s) !! "season" = Some s
  ∧ cols (with_season df s) !! "season_dw" = None.
Proof.
  simpl. rewrite lookup_delete_ne by done.
  by rewrite lookup_insert_eq, lookup_delete_eq.
Qed.

Lemma with_season_dom (df : DataFrame) (s : list cell) :
  dom (cols (with_season df s)) = (dom (cols df) ∪ {["season"]}) ∖ {["season_dw"]}.
Proof.
  simpl. rewrite dom_delete_L, dom_insert_L. apply set_eq. intros k.
  rewrite !elem_of_difference, !elem_of_union, !elem_of_singleton. tauto.
Qed.

Lemma season_base_values (df : DataFrame) : Forall season_value (season_base df).
Proof.
  unfold season_base. destruct (cols df !! "season") as [s|].
  - apply Forall_fmap, Forall_true. intros c. apply season_from_text_value.
  - apply Forall_replicate. unfold season_value. auto.
Qed.

Lemma where_notna_values (dw base : list cell) :
  Forall season_value dw → Forall season_value base →
  Forall season_value (where_notna dw base).
Proof.
  intros Hdw Hbase. apply Forall_lookup. intros i c Hc.
  unfold where_notna in Hc. apply lookup_zip_with_Some in Hc as (x & y & -> & Hx & Hy).
  destruct (notna x).
  - by eapply (proj1 (Forall_lookup _ _) Hdw).
  - by eapply (proj1 (Forall_lookup _ _) Hbase).
Qed.

Lemma series_map_season_values (month dw : list cell) :
  series_map dry_wet_from_month month = Ok dw → Forall season_value dw.
Proof.
  intros Hm. apply series_map_ok in Hm as [Hlen Hi].
  apply Forall_lookup. intros i c Hc.
  destruct (lookup_lt_is_Some_2 month i) as [m Hm].
  { rewrite <-Hlen. by eapply lookup_lt_Some. }
  destruct (Hi i m Hm) as (r & Hr & Hdw). rewrite Hdw in Hc. injection Hc as <-.
  by eapply dry_wet_cell_value.
Qed.

(** Season derivation does not raise on a coerced column without
    infinities. *)
Lemma series_map_month_returns (month : list cell) :
  Forall (λ c, is_infinite c = false) (to_numeric month) →
  is_ok (series_map dry_wet_from_month (to_numeric month)) = true.
Proof.
  intros Hfin. apply rmapM_returns.
  pose proof (to_numeric_is_numeric month) as Hnum.
  revert Hfin Hnum. generalize (to_numeric month). intros col Hfin Hnum.
  apply Forall_lookup. intros i c Hc.
  pose proof (proj1 (Forall_lookup _ _) Hfin i c Hc) as Hf.
  pose proof (proj1 (Forall_lookup _ _) Hnum i c Hc) as Hn. simpl in Hf, Hn.
  unfold dry_wet_from_month.
  destruct c as [z|[s|s| |s m e]| |]; simpl in *; try done.
Qed.

Lemma standardise_dataset1_returns (df : DataFrame) :
  (∀ month, cols df !! "month" = Some month →
     Forall (λ c, is_infinite c = false) (to_numeric month)) →
  is_ok (standardise_dataset1 df) = true.
Proof.
  intros Hfin. rewrite standardise_dataset1_unfold, coerced1_month.
  destruct (cols df !! "month") as [month|]; simpl; [|done].
  pose proof (series_map_month_returns month (Hfin month eq_refl)) as Hok.
  by destruct (series_map dry_wet_from_month (to_numeric month)).
Qed.

End StandardiseFacts.

(** ** Claims about the standardiser *)

(** C3: coerce_numeric is a total function (it cannot raise) that leaves the
    row count, the columns it is not asked for and absent columns as they
    are, and replaces each present listed column by its numeric version: as
    many cells, all numbers, each cell its own number and every cell without
    one (an unparseable string, None) the missing marker.  With "1" and
    "3.5" parsed as 1 and 3.5 and "abc" and the empty string rejected,
    ["1", "abc", "3.5", EmptyString] becomes [1.0, missing, 3.5, missing]. *)
Theorem coerce_numeric_spec `{Libs} (df : DataFrame) (cs : list string) :
  nrows (coerce_numeric df cs) = nrows df
  ∧ (∀ c, c ∉ cs → cols (coerce_numeric df cs) !! c = cols df !! c)
  ∧ (∀ c, cols df !! c = None → cols (coerce_numeric df cs) !! c = None)
  ∧ (∀ c col, c ∈ cs → cols df !! c = Some col →
       cols (coerce_numeric df cs) !! c = Some (to_numeric col)
       ∧ length (to_numeric col) = length col
       ∧ Forall (λ x, is_numeric x = true) (to_numeric col)
       ∧ (∀ i x, col !! i = Some x →
            to_numeric col !! i = Some (cell_of_number (to_number x))
            ∨ to_numeric col !! i = Some (VFloat (as_float (to_number x))))
       ∧ (∀ i s, col !! i = Some (VStr s) → parse_number s = None →
            to_numeric col !! i = Some NaN)
       ∧ (∀ i, col !! i = Some VNone → to_numeric col !! i = Some NaN))
  ∧ (parse_number "1" = Some (inl 1) → parse_number "abc" = None →
     parse_number "3.5" = Some (inr PyFloat.f3_5) → parse_number EmptyString = None →
     to_numeric [VStr "1"; VStr "abc"; VStr "3.5"; VStr EmptyString]
     = [VFloat PyFloat.f1_0; NaN; VFloat PyFloat.f3_5; NaN]).
Proof.
  split; [apply coerce_numeric_nrows|].
  split; [intros c Hc; by rewrite coerce_numeric_lookup, decide_False|].
  split.
  { intros c Hc. rewrite coerce_numeric_lookup, Hc. by case_decide. }
  split.
  - intros c col Hc Hcol. rewrite coerce_numeric_lookup, decide_True, Hcol by done.
    split; [done|]. split; [apply to_numeric_length|].
    split; [apply to_numeric_is_numeric|].
    split; [apply to_numeric_lookup|].
    split.
    + intros i s Hi Hs. apply (to_numeric_lookup_nan col i _ Hi). simpl. by rewrite Hs.
    + intros i Hi. by apply (to_numeric_lookup_nan col i _ Hi).
  - intros H1 Habc H35 Hemp. rewrite to_numeric_unfold. simpl.
    by rewrite H1, Habc, H35, Hemp.
Qed.

Lemma coerce_numeric_spec_witness :
  to_numeric (H := Demo.quiet) [VStr "1"; VStr "abc"; VStr "3.5"; VStr EmptyString]
  = [VFloat PyFloat.f1_0; NaN; VFloat PyFloat.f3_5; NaN]
  ∧ cols (coerce_numeric (H := Demo.quiet) Examples.coded_risk ["risk"; "reward"])
      !! "risk"
    = Some [VFloat (S754_zero false); NaN].
Proof.
  destruct (@coerce_numeric_spec Demo.quiet Examples.coded_risk ["risk"; "reward"])
    as (_ & _ & _ & Hcol & Hex).
  split.
  - apply Hex; reflexivity.
  - destruct (Hcol "risk" [VStr "0"; VStr "?"]) as [Hrisk _].
    + apply elem_of_cons. by left.
    + reflexivity.
    + exact Hrisk.
Defined.

(** C9: when standardise_dataset1 completes, the table has a season column
    whose cells are all "Dry", "Wet" or missing, the temporary column
    season_dw is gone, and the columns are those of the input plus season. *)
Theorem standardise_dataset1_season_values `{Libs} (df df' : DataFrame) :
  standardise_dataset1 df = Ok df' →
  (∃ season, cols df' !! "season" = Some season ∧ Forall season_value season)
  ∧ cols df' !! "season_dw" = None
  ∧ dom (cols df') = (dom (cols df) ∪ {["season"]}) ∖ {["season_dw"]}.
Proof.
  rewrite standardise_dataset1_unfold.
  destruct (cols (coerced1 df) !! "month") as [month|]; simpl.
  - destruct (series_map dry_wet_from_month month) as [dw|e] eqn:Hdw; simpl; [|done].
    intros [= <-].
    destruct (with_season_lookup (coerced1 df)
                (where_notna dw (season_base (coerced1 df)))) as [Hs Hdrop].
    split; [|split; [done|by rewrite with_season_dom, coerced1_dom]].
    eexists. split; [done|].
    apply where_notna_values; [by eapply series_map_season_values|].
    apply season_base_values.
  - intros [= <-].
    destruct (with_season_lookup (coerced1 df) (season_base (coerced1 df)))
      as [Hs Hdrop].
    split; [|split; [done|by rewrite with_season_dom, coerced1_dom]].
    eexists. split; [done|]. apply season_base_values.
Qed.

Lemma standardise_dataset1_season_values_witness :
  (∃ season, cols Examples.months_and_seasons_std !! "season" = Some season
             ∧ Forall season_value season)
  ∧ cols Examples.months_and_seasons_std !! "season_dw" = None.
Proof.
  assert (standardise_dataset1 (H := Demo.quiet) Examples.months_and_seasons
          = Ok Examples.months_and_seasons_std) as Hrun by (vm_compute; reflexivity).
  destruct (@standardise_dataset1_season_values Demo.quiet _ _ Hrun) as (Hs & Hdw & _).
  by split.
Defined.



(** ** Contingency tables *)

Lemma counts_total_bump_by {A} (eqb : A → A → bool) (k : A) (n : nat)
    (t : list (A * nat)) :
  counts_total (bump_by eqb k n t) = (counts_total t + n)%nat.
Proof.
  unfold counts_total. induction t as [|[k' m] t IH]; csimpl; [lia|].
  destruct (eqb k k'); csimpl; [lia|]. rewrite IH. lia.
Qed.


Lemma crosstab_total_from (t : ctable) (l : list (cell * cell)) :
  counts_total
    (foldl (λ t kv, if both_present kv then bump_by pair_eqb kv 1 t else t) t l)
  = (counts_total t + length (List.filter both_present l))%nat.
Proof.
  revert t. induction l as [|kv l IH]; intros t; simpl; [lia|].
  rewrite IH. destruct (both_present kv); simpl; [|done].
  rewrite counts_total_bump_by. lia.
Qed.

(** The table counts exactly the rows in which neither value is missing. *)
Lemma crosstab_total (a b : list cell) :
  counts_total (crosstab a b) = length (List.filter both_present (zip a b)).
Proof. unfold crosstab. by rewrite crosstab_total_from. Qed.




Lemma filter_all {A} (P : A → bool) (l : list A) :
  Forall (λ x, P x = true) l → List.filter P l = l.
Proof. induction 1 as [|x l Hx _ IH]; simpl; [done|]. by rewrite Hx, IH. Qed.

(** ** Filling the missing values *)






(** ** The test blocks of run_all *)

Section Tests.
Context `{Libs}.

Lemma has_col_true (df : DataFrame) (c : string) :
  has_col df c = true ↔ is_Some (cols df !! c).
Proof. unfold has_col. apply bool_decide_eq_true. Qed.

Lemma has_cols_pair (df : DataFrame) (a b : string) :
  has_cols df [a; b] = has_col df a && has_col df b.
Proof. unfold has_cols. simpl. by rewrite andb_true_r. Qed.

Lemma getitem_has_col (df : DataFrame) (c : string) :
  has_col df c = true → ∃ col, cols df !! c = Some col ∧ getitem df c = Ok col.
Proof.
  intros [col Hcol]%has_col_true. exists col. unfold getitem. by rewrite Hcol.
Qed.

(** The chi-square block adds its key when both columns are there, and does
    nothing at all otherwise. *)
Lemma chi2_test_cases (d1 : DataFrame) (tests tests' : gmap string test_result) :
  chi2_test d1 tests = Ok tests' →
  (has_cols d1 ["risk"; "reward"] = true
   ∧ ∃ t, tests' = <["risk_vs_reward_chi2" := t]> tests)
  ∨ (has_cols d1 ["risk"; "reward"] = false ∧ tests' = tests).
Proof.
  unfold chi2_test. destruct (has_cols d1 ["risk"; "reward"]).
  - intros Hrun. left. split; [done|].
    destruct (getitem d1 "risk") as [risk|]; simpl in Hrun; [|done].
    destruct (getitem d1 "reward") as [reward|]; simpl in Hrun; [|done].
    destruct (chi_square _ _) as [t|]; simpl in Hrun; [|done].
    injection Hrun as <-. eauto.
  - intros [= <-]. by right.
Qed.

Lemma chi2_test_skips (d1 : DataFrame) (tests : gmap string test_result) :
  has_cols d1 ["risk"; "reward"] = false → chi2_test d1 tests = Ok tests.
Proof. intros Hc. unfold chi2_test. by rewrite Hc. Qed.

#[local] Opaque mw_samples.

Lemma mw_test_cases (d1 : DataFrame) (tests tests' : gmap string test_result) :
  mw_test d1 tests = Ok tests' →
  (mw_applies d1 ∧ ∃ t, tests' = <["sec_after_rat_by_risk_mw" := t]> tests)
  ∨ (¬ mw_applies d1 ∧ tests' = tests).
Proof.
  unfold mw_test, mw_applies. rewrite has_cols_pair.
  destruct (has_col d1 "risk") eqn:Hr; simpl.
  2:{ intros [= <-]. right. split; [|done]. intros (risk & sec & Hrisk & _).
      apply not_true_iff_false in Hr. apply Hr, has_col_true. by rewrite Hrisk. }
  destruct (has_col d1 "seconds_after_rat_arrival") eqn:Hs; simpl.
  2:{ intros [= <-]. right. split; [|done]. intros (risk & sec & _ & Hsec & _).
      apply not_true_iff_false in Hs. apply Hs, has_col_true. by rewrite Hsec. }
  destruct (getitem_has_col _ _ Hr) as (risk & Hrisk & ->).
  destruct (getitem_has_col _ _ Hs) as (sec & Hsec & ->). simpl.
  destruct (mw_samples risk sec) as [a b] eqn:Hab.
  destruct ((3 <? length a)%nat && (3 <? length b)%nat) eqn:Hlen.
  - apply andb_true_iff in Hlen as [Ha%Nat.ltb_lt Hb%Nat.ltb_lt].
    intros Hrun. left. split.
    + exists risk, sec. by rewrite Hab.
    + destruct (mann_whitney a b) as [t|]; simpl in Hrun; [|done].
      injection Hrun as <-. eauto.
  - intros [= <-]. right. split; [|done].
    intros (risk' & sec' & Hrisk' & Hsec' & Ha & Hb).
    rewrite Hrisk in Hrisk'. rewrite Hsec in Hsec'.
    injection Hrisk' as <-. injection Hsec' as <-. rewrite Hab in Ha, Hb. simpl in *.
    apply andb_false_iff in Hlen as [Hlen|Hlen]; apply Nat.ltb_ge in Hlen; lia.
Qed.

#[local] Transparent mw_samples.

Lemma kw_test_cases (d2 : DataFrame) (tests tests' : gmap string test_result) :
  kw_test d2 tests = Ok tests' →
  (∃ t, tests' = <["rat_arrivals_kruskal_by_month" := t]> tests) ∨ tests' = tests.
Proof.
  unfold kw_test. destruct (has_col d2 "month" && has_col d2 "rat_arrival_number").
  2:{ intros [= <-]. by right. }
  destruct (getitem d2 "month") as [month|]; simpl; [|done].
  destruct (getitem d2 "rat_arrival_number") as [arr|]; simpl; [|done].
  destruct (_ && _).
  - destruct (kruskal _) as [t|]; simpl; [|done]. intros [= <-]. eauto.
  - intros [= <-]. by right.
Qed.

(** The columns of the standardised table, other than season. *)
Lemma standardise_dataset1_lookup (df df' : DataFrame) (c : string) :
  standardise_dataset1 df = Ok df' → c ≠ "season" → c ≠ "season_dw" →
  cols df' !! c = cols (coerced1 df) !! c ∧ nrows df' = nrows df.
Proof.
  intros Hrun Hs Hdw. rewrite standardise_dataset1_unfold in Hrun.
  assert (∃ s, df' = with_season (coerced1 df) s) as [s ->].
  { destruct (cols (coerced1 df) !! "month"); simpl in Hrun.
    - destruct (series_map _ _); simpl in Hrun; [|done]. injection Hrun as <-. eauto.
    - injection Hrun as <-. eauto. }
  simpl. rewrite lookup_delete_ne, lookup_insert_ne by done.
  split; [done|]. apply coerce_numeric_nrows.
Qed.

Lemma standardise_dataset1_has_col (df df' : DataFrame) (c : string) :
  standardise_dataset1 df = Ok df' → c ≠ "season" → c ≠ "season_dw" →
  has_col df' c = has_col df c.
Proof.
  intros Hrun Hs Hdw. unfold has_col at 1.
  rewrite (proj1 (standardise_dataset1_lookup df df' c Hrun Hs Hdw)).
  apply coerce_numeric_has_col.
Qed.

End Tests.

(** ** Computations on the world *)

Section RunFacts.
Context `{Libs}.

Lemma bind_ok {A B} (m : Run A) (k : A → Run B) (w w' : world) (b : B) :
  (m ≫= k) w = (Ok b, w') → ∃ a w1, m w = (Ok a, w1) ∧ k a w1 = (Ok b, w').
Proof.
  unfold mbind, Run_bind, bind. destruct (m w) as [[a|e] w1]; [eauto|done].
Qed.

Lemma bind_run {A B} (m : Run A) (k : A → Run B) (w : world) :
  (m ≫= k) w = match m w with
               | (Ok a, w1) => k a w1
               | (Raise e, w1) => (Raise e, w1)
               end.
Proof. done. Qed.

Lemma lift_ok {A} (r : result A) (w w' : world) (a : A) :
  lift r w = (Ok a, w') → r = Ok a ∧ w' = w.
Proof. unfold lift. by intros [= -> ->]. Qed.

Lemma returns_ret {A} (a : A) : returns (mret a).
Proof. intros w. by exists a, w. Qed.

Lemma returns_lift {A} (a : A) : returns (lift (Ok a)).
Proof. intros w. by exists a, w. Qed.

Lemma returns_modify f : returns (modify f).
Proof. intros w. by exists tt, (f w). Qed.

Lemma returns_check : returns (check None).
Proof. intros w. by exists tt, w. Qed.

Lemma returns_gcf : returns gcf.
Proof. intros w. unfold gcf. destruct (figs w); eauto. Qed.

Lemma returns_bind {A B} (m : Run A) (k : A → Run B) :
  returns m → (∀ a, returns (k a)) → returns (m ≫= k).
Proof.
  intros Hm Hk w. destruct (Hm w) as (a & w1 & Ha).
  destruct (Hk a w1) as (b & w' & Hb). exists b, w'. by rewrite bind_run, Ha.
Qed.

Lemma returns_when (b : bool) (m : Run unit) :
  (b = true → returns m) → returns (when b m).
Proof. destruct b; simpl; [auto|intros _; apply returns_ret]. Qed.

Lemma load_clean_ok (root : string) (d1 d2 : DataFrame) :
  load_clean root = Ok (d1, d2) →
  ∃ raw1 raw2,
    read_csv (path_join root "dataset1(1).csv") = Ok raw1
    ∧ read_csv (path_join root "dataset2(1).csv") = Ok raw2
    ∧ standardise_dataset1 raw1 = Ok d1
    ∧ d2 = standardise_dataset2 raw2.
Proof.
  unfold load_clean.
  destruct (read_csv (path_join root "dataset1(1).csv")) as [raw1|]; simpl; [|done].
  destruct (read_csv (path_join root "dataset2(1).csv")) as [raw2|]; simpl; [|done].
  destruct (standardise_dataset1 raw1) as [d1'|] eqn:Hstd; simpl; [|done].
  intros [= <- <-]. by exists raw1, raw2.
Qed.

(** What a run that returns has gone through. *)
Lemma run_all_ok (root : string) (w w' : world) (s : summary) :
  run_all root w = (Ok s, w') →
  ∃ d1 d2 w1 t1 t2,
    load_clean root = Ok (d1, d2)
    ∧ make_figures d1 d2 (path_join root "figures") w = (Ok tt, w1)
    ∧ mean_rates d1 = Ok (means s)
    ∧ chi2_test d1 ∅ = Ok t1
    ∧ mw_test d1 t1 = Ok t2
    ∧ kw_test d2 t2 = Ok (tests s)
    ∧ shapes s = (shape d1, shape d2).
Proof.
  unfold run_all. intros Hrun.
  apply bind_ok in Hrun as ([d1 d2] & w0 & [Hload ->]%lift_ok & Hrun).
  apply bind_ok in Hrun as ([] & w1 & Hfig & Hrun).
  apply bind_ok in Hrun as (means & ? & [Hmeans ->]%lift_ok & Hrun).
  apply bind_ok in Hrun as (t1 & ? & [Ht1 ->]%lift_ok & Hrun).
  apply bind_ok in Hrun as (t2 & ? & [Ht2 ->]%lift_ok & Hrun).
  apply bind_ok in Hrun as (t3 & ? & [Ht3 ->]%lift_ok & Hrun).
  apply bind_ok in Hrun as ([] & w2 & _ & Hrun).
  apply bind_ok in Hrun as ([] & w3 & _ & Hrun).
  injection Hrun as <- <-. simpl. by exists d1, d2, w1, t1, t2.
Qed.

End RunFacts.

(** ** Runs in which no library routine raises *)

Section Totality.
Context `{Libs}.
Hypothesis quiet : never_raise.

Ltac returns_steps :=
  repeat first
    [ apply returns_ret | apply returns_modify | apply returns_check
    | apply returns_gcf | apply returns_lift
    | apply returns_bind; [|intros ?] ].

Lemma returns_os_makedirs (d : string) : returns (os_makedirs d).
Proof.
  unfold os_makedirs. rewrite (proj1 quiet). returns_steps.
Qed.

Lemma returns_tight_layout : returns plt_tight_layout.
Proof.
  unfold plt_tight_layout. apply returns_bind; [apply returns_gcf|]. intros f.
  rewrite (proj1 (proj2 (proj2 (proj2 quiet)))). apply returns_check.
Qed.

Lemma returns_savefig (p : string) : returns (plt_savefig p).
Proof.
  unfold plt_savefig. apply returns_bind; [apply returns_gcf|]. intros f.
  rewrite (proj1 (proj2 (proj2 (proj2 (proj2 quiet))))). returns_steps.
Qed.

Lemma returns_safe_savefig (p : string) : returns (safe_savefig p).
Proof.
  unfold safe_savefig, plt_close.
  apply returns_bind; [apply returns_os_makedirs|]. intros _.
  apply returns_bind; [apply returns_tight_layout|]. intros _.
  apply returns_bind; [apply returns_savefig|]. intros _.
  apply returns_modify.
Qed.

Lemma returns_series_plot (k : plot_kind) (data : list (cell * cell)) :
  returns (series_plot k data).
Proof.
  unfold series_plot, on_current. rewrite (proj1 (proj2 (proj2 quiet))). returns_steps.
Qed.

Lemma returns_frame_scatter (data : list (cell * cell)) : returns (frame_scatter data).
Proof.
  unfold frame_scatter. rewrite (proj1 (proj2 (proj2 quiet))). returns_steps.
Qed.

Lemma grouped_ok agg (df : DataFrame) (k v : string) :
  has_cols df [k; v] = true → ∃ data, grouped agg df k v = Ok data.
Proof.
  rewrite has_cols_pair. intros [Hk Hv]%andb_true_iff. unfold grouped.
  destruct (getitem_has_col _ _ Hk) as (keys & _ & ->).
  destruct (getitem_has_col _ _ Hv) as (vals & _ & ->). simpl. eauto.
Qed.

Ltac figure_steps :=
  repeat first
    [ apply returns_safe_savefig | apply returns_series_plot
    | apply returns_frame_scatter | apply returns_modify | apply returns_lift
    | apply returns_bind; [|intros ?] ].

Lemma returns_grouped_plot agg (df : DataFrame) (k v : string) (rest : list (cell * cell) → Run unit) :
  (∀ data, returns (rest data)) →
  returns (when (has_cols df [k; v]) (lift (grouped agg df k v) ≫= rest)).
Proof.
  intros Hrest. apply returns_when. intros Hc.
  destruct (grouped_ok agg df k v Hc) as [data ->].
  apply returns_bind; [apply returns_lift|done].
Qed.

Lemma returns_scatter_plot (df : DataFrame) (x y : string) (rest : list cell → list cell → Run unit) :
  (∀ a b, returns (rest a b)) →
  returns (when (has_cols df [x; y])
             (lift (getitem df x) ≫= λ a, lift (getitem df y) ≫= λ b, rest a b)).
Proof.
  intros Hrest. apply returns_when. rewrite has_cols_pair.
  intros [Hx Hy]%andb_true_iff.
  destruct (getitem_has_col _ _ Hx) as (a & _ & ->).
  destruct (getitem_has_col _ _ Hy) as (b & _ & ->).
  apply returns_bind; [apply returns_lift|]. intros ?.
  apply returns_bind; [apply returns_lift|]. intros ?. apply Hrest.
Qed.

Lemma returns_make_figures (d1 d2 : DataFrame) (dir : string) :
  returns (make_figures d1 d2 dir).
Proof.
  unfold make_figures, set_title, set_xlabel, set_ylabel, on_current.
  repeat (apply returns_bind; [|intros _]);
    first [ apply returns_grouped_plot; intros data; figure_steps
          | apply returns_scatter_plot; intros a b; figure_steps ].
Qed.

Lemma mean_rates_returns (d1 : DataFrame) : ∃ m, mean_rates d1 = Ok m.
Proof.
  unfold mean_rates.
  destruct (has_col d1 "risk") eqn:Hr; destruct (has_col d1 "reward") eqn:Hw;
    repeat match goal with
           | Hc : has_col _ _ = true |- _ =>
               destruct (getitem_has_col _ _ Hc) as (? & _ & ->); clear Hc
           end; simpl; eauto.
Qed.

Lemma chi2_test_returns (d1 : DataFrame) tests : ∃ t, chi2_test d1 tests = Ok t.
Proof.
  unfold chi2_test. destruct (has_cols d1 ["risk"; "reward"]) eqn:Hc; [|eauto].
  rewrite has_cols_pair in Hc. apply andb_true_iff in Hc as [Hr Hw].
  destruct (getitem_has_col _ _ Hr) as (risk & _ & ->).
  destruct (getitem_has_col _ _ Hw) as (reward & _ & ->). simpl.
  unfold chi_square.
  pose proof (proj1 (proj2 (proj2 (proj2 (proj2 (proj2 quiet)))))
                (crosstab (fillna (-1) risk) (fillna (-1) reward))) as Hok.
  destruct (chi2_contingency _) as [[[chi2 p] dof]|]; [|done]. simpl. eauto.
Qed.

Lemma mw_test_returns (d1 : DataFrame) tests : ∃ t, mw_test d1 tests = Ok t.
Proof.
  unfold mw_test.
  destruct (has_cols d1 ["risk"; "seconds_after_rat_arrival"]) eqn:Hc; [|eauto].
  rewrite has_cols_pair in Hc. apply andb_true_iff in Hc as [Hr Hs].
  destruct (getitem_has_col _ _ Hr) as (risk & _ & ->).
  destruct (getitem_has_col _ _ Hs) as (sec & _ & ->). simpl.
  destruct (_ && _); [|eauto]. unfold mann_whitney.
  pose proof (proj1 (proj2 (proj2 (proj2 (proj2 (proj2 (proj2 quiet))))))
                (dropna (loc_eq risk (VInt 0) sec))
                (dropna (loc_eq risk (VInt 1) sec))) as Hok.
  destruct (mannwhitneyu _ _) as [[u p]|]; [|done]. simpl. eauto.
Qed.

Lemma kw_test_returns (d2 : DataFrame) tests : ∃ t, kw_test d2 tests = Ok t.
Proof.
  unfold kw_test.
  destruct (has_col d2 "month") eqn:Hm; simpl; [|eauto].
  destruct (has_col d2 "rat_arrival_number") eqn:Ha; simpl; [|eauto].
  destruct (getitem_has_col _ _ Hm) as (month & _ & ->).
  destruct (getitem_has_col _ _ Ha) as (arr & _ & ->). simpl.
  destruct (_ && _); [|eauto]. unfold kruskal.
  pose proof (proj2 (proj2 (proj2 (proj2 (proj2 (proj2 (proj2 quiet))))))
                ((λ g, dropna g.2) <$> groupby month arr)) as Hok.
  destruct (stats_kruskal _) as [[h p]|]; [|done]. simpl. eauto.
Qed.

(** With both files read, no infinite month and no library failure, the
    whole run returns. *)
Lemma run_all_returns (root : string) (raw1 raw2 : DataFrame) :
  read_csv (path_join root "dataset1(1).csv") = Ok raw1 →
  read_csv (path_join root "dataset2(1).csv") = Ok raw2 →
  is_ok (standardise_dataset1 raw1) = true →
  returns (run_all root).
Proof.
  intros H1 H2 Hstd. unfold run_all, load_clean. rewrite H1, H2. simpl.
  destruct (standardise_dataset1 raw1) as [d1|]; [|done]. simpl.
  apply returns_bind; [apply returns_lift|]. intros [d1' d2'].
  apply returns_bind; [apply returns_make_figures|]. intros _.
  destruct (mean_rates_returns d1') as [m ->].
  apply returns_bind; [apply returns_lift|]. intros means.
  destruct (chi2_test_returns d1' ∅) as [t1 ->].
  apply returns_bind; [apply returns_lift|]. intros t1'.
  destruct (mw_test_returns d1' t1') as [t2 ->].
  apply returns_bind; [apply returns_lift|]. intros t2'.
  destruct (kw_test_returns d2' t2') as [t3 ->].
  apply returns_bind; [apply returns_lift|]. intros t3'.
  unfold write_file. rewrite !(proj1 (proj2 quiet)). returns_steps.
Qed.

End Totality.

(** ** Claims about the tests *)




Section TestSelection.
Context `{Libs}.

Lemma standardise_dataset1_wf (df df' : DataFrame) :
  wf_frame df → standardise_dataset1 df = Ok df' → wf_frame df' ∧ nrows df' = nrows df.
Proof.
  intros Hwf Hrun. pose proof (coerce_numeric_wf df
    ["risk"; "reward"; "seconds_after_rat_arrival"; "hours_after_sunset"; "month"] Hwf)
    as Hwf0. fold (coerced1 df) in Hwf0.
  assert (length (season_base (coerced1 df)) = nrows (coerced1 df)) as Hbase.
  { unfold season_base. destruct (cols (coerced1 df) !! "season") as [s|] eqn:Hs.
    - rewrite length_fmap. by apply (Hwf0 "season").
    - apply length_replicate. }
  assert (∀ s, length s = nrows (coerced1 df) → wf_frame (with_season (coerced1 df) s))
    as Hwith.
  { intros s Hlen c col. unfold column_fits. simpl.
    destruct (decide (c = "season_dw")) as [->|?]; [by rewrite lookup_delete_eq|].
    rewrite lookup_delete_ne by done.
    destruct (decide (c = "season")) as [->|?].
    - rewrite lookup_insert_eq. by intros [= <-].
    - rewrite lookup_insert_ne by done. apply Hwf0. }
  assert (nrows (coerced1 df) = nrows df) as Hn by apply coerce_numeric_nrows.
  rewrite standardise_dataset1_unfold in Hrun.
  destruct (cols (coerced1 df) !! "month") as [month|] eqn:Hmonth; simpl in Hrun.
  - destruct (series_map dry_wet_from_month month) as [dw|] eqn:Hdw;
      simpl in Hrun; [|done].
    injection Hrun as <-. split; [|done]. apply Hwith.
    apply series_map_ok in Hdw as [Hlen _]. unfold where_notna.
    rewrite length_zip_with, Hlen, Hbase, (Hwf0 "month" month Hmonth). lia.
  - injection Hrun as <-. split; [|done]. by apply Hwith.
Qed.

Lemma tests_lookup_chi2 (d1 d2 : DataFrame) (t1 t2 t3 : gmap string test_result) :
  chi2_test d1 ∅ = Ok t1 → mw_test d1 t1 = Ok t2 → kw_test d2 t2 = Ok t3 →
  (is_Some (t3 !! "risk_vs_reward_chi2") ↔ has_cols d1 ["risk"; "reward"] = true)
  ∧ (is_Some (t3 !! "sec_after_rat_by_risk_mw") ↔ mw_applies d1).
Proof.
  intros H1 H2 H3.
  assert (t3 !! "risk_vs_reward_chi2" = t2 !! "risk_vs_reward_chi2"
          ∧ t3 !! "sec_after_rat_by_risk_mw" = t2 !! "sec_after_rat_by_risk_mw")
    as [-> ->].
  { apply kw_test_cases in H3 as [[t ->]| ->]; [|done].
    by rewrite !lookup_insert_ne. }
  assert (t1 !! "sec_after_rat_by_risk_mw" = None) as Hfresh.
  { apply chi2_test_cases in H1 as [[_ [t ->]]|[_ ->]]; [|done].
    by rewrite lookup_insert_ne. }
  split.
  - assert (t2 !! "risk_vs_reward_chi2" = t1 !! "risk_vs_reward_chi2") as ->.
    { apply mw_test_cases in H2 as [[_ [t ->]]|[_ ->]]; [|done].
      by rewrite lookup_insert_ne. }
    apply chi2_test_cases in H1 as [[Hc [t ->]]|[Hc ->]]; rewrite Hc.
    + rewrite lookup_insert_eq. split; eauto.
    + rewrite lookup_empty. split; [by intros [? ?]|done].
  - apply mw_test_cases in H2 as [[Hmw [t ->]]|[Hmw ->]].
    + rewrite lookup_insert_eq. split; eauto.
    + rewrite Hfresh. split; [by intros [? ?]|done].
Qed.

End TestSelection.

(** C5: in a run that reaches its export, the summary has the chi-square
    result exactly when Dataset A has both a risk and a reward column, with
    no condition on the number of rows; without one of the columns the block
    calls nothing, raises nothing and leaves the tests as they are.  The run
    does reach its export when both files are read, no month is infinite and
    no library routine raises. *)
Theorem chi_square_iff_columns `{Libs} :
  (∀ root w w' s raw1,
     run_all root w = (Ok s, w') →
     read_csv (path_join root "dataset1(1).csv") = Ok raw1 →
     (is_Some (tests s !! "risk_vs_reward_chi2")
      ↔ is_Some (cols raw1 !! "risk") ∧ is_Some (cols raw1 !! "reward")))
  ∧ (∀ d1 tests,
       has_cols d1 ["risk"; "reward"] = false → chi2_test d1 tests = Ok tests)
  ∧ (∀ root raw1 raw2,
       never_raise →
       read_csv (path_join root "dataset1(1).csv") = Ok raw1 →
       read_csv (path_join root "dataset2(1).csv") = Ok raw2 →
       is_ok (standardise_dataset1 raw1) = true →
       returns (run_all root)).
Proof.
  split; [|split; [apply @chi2_test_skips|]].
  - intros root w w' s raw1 Hrun Hread.
    apply run_all_ok in Hrun as (d1 & d2 & w1 & t1 & t2 & Hload & _ & _ & H1 & H2 & H3 & _).
    apply load_clean_ok in Hload as (raw1' & raw2 & Hread' & _ & Hstd & _).
    rewrite Hread in Hread'. injection Hread' as <-.
    rewrite (proj1 (tests_lookup_chi2 d1 d2 t1 t2 (tests s) H1 H2 H3)).
    rewrite has_cols_pair, andb_true_iff.
    rewrite !(standardise_dataset1_has_col raw1 d1 _ Hstd) by done.
    by rewrite !has_col_true.
  - intros root raw1 raw2 Hq. by apply run_all_returns.
Qed.

Lemma chi_square_iff_columns_witness :
  ∃ s w',
    run_all (H := Examples.libs) "data" empty_world = (Ok s, w')
    ∧ (is_Some (tests s !! "risk_vs_reward_chi2")
       ↔ is_Some (cols Examples.dataset1 !! "risk")
         ∧ is_Some (cols Examples.dataset1 !! "reward")).
Proof.
  destruct (run_all (H := Examples.libs) "data" empty_world) as [[s|e] w'] eqn:Hrun.
  - exists s, w'. split; [done|].
    apply (proj1 (@chi_square_iff_columns Examples.libs) "data" empty_world w' s
             Examples.dataset1 Hrun).
    reflexivity.
  - settled_by_evaluation Hrun.
Defined.



(** ** Figures *)

Section Figures.
Context `{Libs}.

Lemma keeps_ret {A} (a : A) : keeps_saved (mret a).
Proof. by intros w r w' [= <- <-]. Qed.

Lemma keeps_lift {A} (r : result A) : keeps_saved (lift r).
Proof. by intros w r' w' [= <- <-]. Qed.

Lemma keeps_check (e : option exn) : keeps_saved (check e).
Proof. destruct e; by intros w r w' [= <- <-]. Qed.

Lemma keeps_modify (f : world → world) :
  (∀ w, saved w ⊆ saved (f w)) → keeps_saved (modify f).
Proof. intros Hf w r w' [= <- <-]. apply Hf. Qed.

Lemma keeps_gcf : keeps_saved gcf.
Proof. intros w r w'. unfold gcf. destruct (figs w); by intros [= <- <-]. Qed.

Lemma keeps_bind {A B} (m : Run A) (k : A → Run B) :
  keeps_saved m → (∀ a, keeps_saved (k a)) → keeps_saved (m ≫= k).
Proof.
  intros Hm Hk w r w'. rewrite bind_run.
  destruct (m w) as [[a|e] w1] eqn:Hmw.
  - intros Hka. etrans; [by eapply Hm|by eapply Hk].
  - intros [= <- <-]. by eapply Hm.
Qed.

Lemma keeps_when (b : bool) (m : Run unit) : keeps_saved m → keeps_saved (when b m).
Proof. destruct b; [done|]. intros _. apply keeps_ret. Qed.

Lemma keeps_on_current g : keeps_saved (on_current g).
Proof. apply keeps_modify. intros w. by destruct (figs w). Qed.

Ltac keeps_steps :=
  repeat first
    [ apply keeps_ret | apply keeps_lift | apply keeps_check | apply keeps_gcf
    | apply keeps_on_current
    | apply keeps_modify; intros ?; simpl; set_solver
    | apply keeps_when
    | apply keeps_bind; [|intros ?] ].

Lemma keeps_safe_savefig (p : string) : keeps_saved (safe_savefig p).
Proof.
  unfold safe_savefig, os_makedirs, plt_tight_layout, plt_savefig, plt_close.
  keeps_steps.
Qed.

Lemma keeps_make_figures (d1 d2 : DataFrame) (dir : string) :
  keeps_saved (make_figures d1 d2 dir).
Proof.
  unfold make_figures, series_plot, frame_scatter, set_title, set_xlabel, set_ylabel.
  repeat first
    [ apply keeps_safe_savefig | apply keeps_ret | apply keeps_lift | apply keeps_check
    | apply keeps_gcf | apply keeps_on_current
    | apply keeps_modify; intros ?; simpl; set_solver
    | apply keeps_when
    | apply keeps_bind; [|intros ?] ].
Qed.

(** safe_savefig, step by step. *)
Lemma safe_savefig_run (p : string) (w : world) :
  safe_savefig p w =
    match makedirs_error (path_dirname p) with
    | Some e => (Raise e, w)
    | None =>
        let w1 := {| figs := match figs w with [] => [new_figure] | fs => fs end;
                     saved := saved w;
                     made_dirs := path_dirname p :: made_dirs w;
                     written := written w |} in
        match tight_layout_error (current_figure w) with
        | Some e => (Raise e, w1)
        | None =>
            match savefig_error p (current_figure w) with
            | Some e => (Raise e, w1)
            | None =>
                (Ok tt, {| figs := tail (figs w);
                           saved := (p, current_figure w) :: saved w;
                           made_dirs := path_dirname p :: made_dirs w;
                           written := written w |})
            end
        end
    end.
Proof.
  unfold safe_savefig, os_makedirs, plt_tight_layout, plt_savefig, plt_close,
    current_figure.
  rewrite bind_run, bind_run.
  destruct (makedirs_error (path_dirname p)) as [e|]; simpl; [done|].
  destruct w as [[|f fs] sv md wr]; simpl.
  - rewrite !bind_run. simpl.
    destruct (tight_layout_error new_figure); simpl; [done|].
    rewrite !bind_run. simpl.
    destruct (savefig_error p new_figure); simpl; done.
  - rewrite !bind_run. simpl.
    destruct (tight_layout_error f); simpl; [done|].
    rewrite !bind_run. simpl.
    destruct (savefig_error p f); simpl; done.
Qed.

Lemma safe_savefig_ok (p : string) (w w' : world) :
  safe_savefig p w = (Ok tt, w') → p ∈ (saved w').*1.
Proof.
  rewrite safe_savefig_run.
  destruct (makedirs_error _); [done|]. simpl.
  destruct (tight_layout_error _); [done|].
  destruct (savefig_error _ _); [done|].
  intros [= <-]. simpl. apply elem_of_cons. by left.
Qed.

(** When the season gate is open and make_figures returns, the season plot
    of risk has been written. *)
Lemma make_figures_season_plot (d1 d2 : DataFrame) (dir : string) (w w' : world) :
  has_cols d1 ["season"; "risk"] = true →
  make_figures d1 d2 dir w = (Ok tt, w') →
  path_join dir "risk_by_season.png" ∈ (saved w').*1.
Proof.
  intros Hgate Hrun. unfold make_figures in Hrun. rewrite Hgate in Hrun.
  apply bind_ok in Hrun as ([] & w1 & Hfirst & Hrest).
  assert (path_join dir "risk_by_season.png" ∈ (saved w1).*1) as Hin.
  { simpl in Hfirst.
    apply bind_ok in Hfirst as (data & ? & _ & Hfirst).
    apply bind_ok in Hfirst as ([] & ? & _ & Hfirst).
    apply bind_ok in Hfirst as ([] & ? & _ & Hfirst).
    apply bind_ok in Hfirst as ([] & ? & _ & Hfirst).
    by apply safe_savefig_ok in Hfirst. }
  apply list_elem_of_fmap in Hin as (x & -> & Hx).
  apply list_elem_of_fmap_2.
  revert Hrest. match goal with |- ?m w1 = _ → _ => assert (keeps_saved m) as Hkeep end.
  { unfold series_plot, frame_scatter, set_title, set_xlabel, set_ylabel.
    repeat first
      [ apply keeps_safe_savefig | apply keeps_ret | apply keeps_lift | apply keeps_check
      | apply keeps_gcf | apply keeps_on_current
      | apply keeps_modify; intros ?; simpl; set_solver
      | apply keeps_when
      | apply keeps_bind; [|intros ?] ]. }
  intros Hrest. by apply (Hkeep _ _ _ Hrest).
Qed.

Lemma groupby_all_missing (keys vals : list cell) :
  Forall (λ c, isna c = true) keys → groupby keys vals = [].
Proof.
  intros Hkeys. unfold groupby.
  assert (Forall (λ kv : cell * cell, notna kv.1 = false) (zip keys vals)) as Hzip.
  { apply Forall_lookup. intros i [k v] Hi.
    apply lookup_zip_with_Some in Hi as (k' & v' & [= -> ->] & Hk & _).
    pose proof (proj1 (Forall_lookup _ _) Hkeys i k' Hk) as Hna. simpl in *.
    unfold notna. by rewrite Hna. }
  induction Hzip as [|kv l Hkv _ IH]; simpl; [done|]. by rewrite Hkv.
Qed.

(** Without a season and a month column the season is missing in every
    row, and the season column is there all the same. *)
Lemma standardise_dataset1_no_season (df : DataFrame) :
  cols df !! "season" = None → cols df !! "month" = None →
  ∃ df', standardise_dataset1 df = Ok df'
         ∧ cols df' !! "season" = Some (replicate (nrows df) VNone)
         ∧ has_col df' "season" = true.
Proof.
  intros Hs Hm. rewrite standardise_dataset1_unfold, coerced1_month, Hm. simpl.
  eexists. split; [done|]. unfold season_base. rewrite coerced1_season, Hs.
  unfold coerced1. rewrite coerce_numeric_nrows.
  split; [apply with_season_lookup|].
  apply has_col_true. by rewrite (proj1 (with_season_lookup _ _)).
Qed.

End Figures.

(** ** Claims about the figures *)

(** C7 (the code departs from it): for a Dataset A with a risk column only,
    standardisation returns and gives a season column that is missing in
    both rows; the column being there, the season gate of make_figures is
    open, the plot of risk by season is drawn from no data, and make_figures
    either raises (at once when the bar plot rejects empty data) or writes
    risk_by_season.png. *)
Theorem season_plot_attempted_without_season_data `{Libs}
    (d2 : DataFrame) (dir : string) (w : world) :
  ∃ d1,
    standardise_dataset1 Examples.risk_only = Ok d1
    ∧ cols d1 !! "season" = Some [VNone; VNone]
    ∧ has_cols d1 ["season"; "risk"] = true
    ∧ grouped series_mean d1 "season" "risk" = Ok []
    ∧ (∀ w', make_figures d1 d2 dir w = (Ok tt, w') →
         path_join dir "risk_by_season.png" ∈ (saved w').*1)
    ∧ (∀ e, plot_error Bar [] = Some e → make_figures d1 d2 dir w = (Raise e, w)).
Proof.
  destruct (standardise_dataset1_no_season Examples.risk_only eq_refl eq_refl)
    as (d1 & Hstd & Hseason & Hhas).
  assert (has_cols d1 ["season"; "risk"] = true) as Hgate.
  { rewrite has_cols_pair, Hhas.
    by rewrite (standardise_dataset1_has_col _ _ "risk" Hstd). }
  assert (grouped series_mean d1 "season" "risk" = Ok []) as Hdata.
  { unfold grouped, getitem. rewrite Hseason. simpl.
    rewrite has_cols_pair in Hgate. apply andb_true_iff in Hgate as [_ Hrisk].
    apply has_col_true in Hrisk as [risk ->]. simpl.
    rewrite groupby_all_missing; [done|]. by repeat constructor. }
  exists d1. repeat split; try done.
  - intros w'. by apply make_figures_season_plot.
  - intros e He. unfold make_figures. rewrite Hgate. simpl.
    rewrite bind_run, bind_run, Hdata. simpl.
    unfold series_plot. rewrite bind_run, He. done.
Qed.

Lemma season_plot_attempted_without_season_data_witness :
  ∃ d1,
    standardise_dataset1 (H := Examples.libs_risk_only) Examples.risk_only = Ok d1
    ∧ cols d1 !! "season" = Some [VNone; VNone]
    ∧ "data/figures/risk_by_season.png"
      ∈ (saved (make_figures (H := Examples.libs_risk_only) d1 Examples.dataset2
                  "data/figures" empty_world).2).*1.
Proof.
  destruct (@season_plot_attempted_without_season_data Examples.libs_risk_only
              Examples.dataset2 "data/figures" empty_world)
    as (d1 & Hstd & Hseason & _ & _ & Hsaved & _).
  exists d1. split; [done|]. split; [done|].
  assert (d1 = {| nrows := 2;
                  cols := {[ "risk" := [VInt 1; VInt 0];
                             "season" := [VNone; VNone] ]} |}) as ->.
  { vm_compute in Hstd. by injection Hstd as <-. }
  destruct (make_figures _ _ _ _) as [[[]|e] w'] eqn:Hrun.
  - by apply Hsaved.
  - settled_by_evaluation Hrun.
Defined.

(** With a bar plot that rejects empty data, the run on that Dataset A
    aborts in make_figures. *)
Example run_without_season_aborts :
  run_all (H := Examples.libs_risk_only_strict) "data" empty_world
  = (Raise (LibraryError "IndexError"), empty_world).
Proof. by vm_compute. Qed.

(** C8, as stated, fails: when the save raises, the figure that was open
    is still open after safe_savefig. *)
Lemma failed_save_leaves_figure_open :
  ¬ (∀ (L : Libs) (p : string) (w : world),
       figs (safe_savefig p w).2 = tail (figs w)).
Proof.
  intros Hclaim.
  specialize (Hclaim Examples.libs_no_save "figures/risk_by_season.png"
                Examples.one_figure).
  vm_compute in Hclaim. discriminate.
Qed.

(** C8 (amended): safe_savefig closes the current figure when creating the
    directory, the layout pass and the save all succeed, and the image is
    then written; when one of them raises, the exception leaves safe_savefig
    and the figure stays open. *)
Theorem safe_savefig_closes_after_success `{Libs} (p : string) (w : world) :
  (makedirs_error (path_dirname p) = None →
   tight_layout_error (current_figure w) = None →
   savefig_error p (current_figure w) = None →
   ∃ w', safe_savefig p w = (Ok tt, w')
         ∧ figs w' = tail (figs w)
         ∧ saved w' = (p, current_figure w) :: saved w
         ∧ made_dirs w' = path_dirname p :: made_dirs w)
  ∧ (∀ e, makedirs_error (path_dirname p) = Some e →
       safe_savefig p w = (Raise e, w))
  ∧ (∀ e, makedirs_error (path_dirname p) = None →
       tight_layout_error (current_figure w) = Some e
       ∨ (tight_layout_error (current_figure w) = None
          ∧ savefig_error p (current_figure w) = Some e) →
       ∃ w', safe_savefig p w = (Raise e, w')
             ∧ figs w' = current_figure w :: tail (figs w)
             ∧ saved w' = saved w).
Proof.
  rewrite safe_savefig_run. split; [|split].
  - intros -> -> ->. eauto.
  - by intros e ->.
  - intros e -> Hfail.
    assert (match figs w with [] => [new_figure] | fs => fs end
            = current_figure w :: tail (figs w)) as Hfigs.
    { unfold current_figure. by destruct (figs w). }
    destruct Hfail as [-> | [-> ->]]; simpl; rewrite Hfigs; eauto.
Qed.

Lemma safe_savefig_closes_after_success_witness :
  (∃ w', safe_savefig (H := Examples.libs) "figures/risk_by_season.png"
           Examples.one_figure = (Ok tt, w')
         ∧ figs w' = [])
  ∧ (∃ w', safe_savefig (H := Examples.libs_no_save) "figures/risk_by_season.png"
             Examples.one_figure = (Raise (LibraryError "OSError"), w')
           ∧ figs w' = [new_figure]).
Proof.
  split.
  - destruct (proj1 (@safe_savefig_closes_after_success Examples.libs
                       "figures/risk_by_season.png" Examples.one_figure))
      as (w' & Hrun & Hfigs & _); [reflexivity..|].
    exists w'. by split.
  - destruct (proj2 (proj2 (@safe_savefig_closes_after_success Examples.libs_no_save
                       "figures/risk_by_season.png" Examples.one_figure))
                (LibraryError "OSError"))
      as (w' & Hrun & Hfigs & _).
    + reflexivity.
    + right. split; reflexivity.
    + exists w'. by split.
Defined.

(** * Further properties *)

(** ** The example runs *)

Lemma example_run :
  run_all (H := Examples.libs) "data" empty_world
  = (Ok MoreExamples.run_summary, MoreExamples.run_world).
Proof. reflexivity. Qed.

Lemma example_figures :
  make_figures (H := Examples.libs) Examples.indicators Examples.dataset2
    "figures" empty_world
  = (Ok tt, MoreExamples.figures_world).
Proof. reflexivity. Qed.

(** ** Equality of cells *)

Lemma float_eqb_refl (x : spec_float) :
  PyFloat.is_nan x = false → PyFloat.eqb x x = true.
Proof.
  unfold PyFloat.eqb, SFeqb, SFcompare.
  destruct x as [s|s| |s m e]; try done; try (by destruct s).
  intros _. destruct s; by rewrite Z.compare_refl, Pos.compare_cont_refl.
Qed.

Lemma cell_eqb_refl (c : cell) : notna c = true → cell_eqb c c = true.
Proof.
  destruct c as [z|f|s|]; simpl; try done.
  - intros _. apply Z.eqb_refl.
  - unfold notna. simpl. intros Hf. apply float_eqb_refl. by destruct (PyFloat.is_nan f).
  - intros _. by apply bool_decide_eq_true.
Qed.

(** No cell equals both 0 and 1. *)
Lemma cell_eqb_0_1 (c : cell) :
  cell_eqb c (VInt 0) = true → cell_eqb c (VInt 1) = true → False.
Proof.
  destruct c as [z|f|s|]; simpl; try done.
  - intros H0%Z.eqb_eq H1%Z.eqb_eq. lia.
  - intros [s ->]%float_eqb_zero H1. by destruct s.
Qed.

(** ** Grouping *)

Lemma groupby_from_single (l : list (cell * cell)) (acc : list (cell * list cell)) :
  (acc = [] ∧ same_key l)
  ∨ (∃ k vs, acc = [(k, vs)]
             ∧ ∀ x, x ∈ l → notna x.1 = true → cell_eqb x.1 k = true) →
  (length (foldl (λ gs kv, if notna kv.1 then group_add cell_eqb kv.1 kv.2 gs else gs)
             acc l) ≤ 1)%nat.
Proof.
  revert acc. induction l as [|kv l IH]; intros acc Hacc.
  - simpl. destruct Hacc as [[-> _]|(k & vs & -> & _)]; simpl; lia.
  - simpl. apply IH. destruct Hacc as [[-> Hsame]|(k & vs & -> & Hk)].
    + destruct (notna kv.1) eqn:Hkv.
      * right. exists kv.1, [kv.2]. split; [done|]. intros x Hx Hnx.
        apply Hsame; try done; apply elem_of_cons; auto.
      * left. split; [done|]. intros x y Hx Hy. apply Hsame; apply elem_of_cons; auto.
    + right. exists k. destruct (notna kv.1) eqn:Hkv.
      * simpl. rewrite (Hk kv) by (done || apply elem_of_cons; auto).
        eexists. split; [done|]. intros x Hx. apply Hk, elem_of_cons. auto.
      * exists vs. split; [done|]. intros x Hx. apply Hk, elem_of_cons. auto.
Qed.

(** Keys that are all one value give at most one group. *)
Lemma groupby_one_value (keys vals : list cell) (k : cell) :
  (∀ c, c ∈ keys → isna c = true ∨ c = k) →
  (length (groupby keys vals) ≤ 1)%nat.
Proof.
  intros Hkeys. unfold groupby. apply groupby_from_single. left. split; [done|].
  intros [x1 x2] [y1 y2] Hx Hy Hnx Hny. simpl in *.
  apply list_elem_of_lookup in Hx as [i Hi]. apply list_elem_of_lookup in Hy as [j Hj].
  apply lookup_zip_with_Some in Hi as (? & ? & [= -> ->] & Hi & _).
  apply lookup_zip_with_Some in Hj as (? & ? & [= -> ->] & Hj & _).
  apply list_elem_of_lookup_2 in Hi. apply list_elem_of_lookup_2 in Hj.
  destruct (Hkeys _ Hi) as [Hna| ->]; [unfold notna in Hnx; by rewrite Hna in Hnx|].
  destruct (Hkeys _ Hj) as [Hna| ->]; [unfold notna in Hny; by rewrite Hna in Hny|].
  by apply cell_eqb_refl.
Qed.

(** ** The Kruskal-Wallis block *)

Section Kruskal.
Context `{Libs}.

Lemma kw_test_run (d2 : DataFrame) (tests : gmap string test_result)
    (month arrivals : list cell) :
  cols d2 !! "month" = Some month →
  cols d2 !! "rat_arrival_number" = Some arrivals →
  kw_test d2 tests =
    if (1 <? length (kw_groups month arrivals))%nat
       && forallb (λ g, (2 <? length g)%nat) (kw_groups month arrivals)
    then t ← kruskal (kw_groups month arrivals);
         Ok (<["rat_arrivals_kruskal_by_month" := t]> tests)
    else Ok tests.
Proof.
  intros Hm Ha. unfold kw_test, getitem.
  rewrite !(proj2 (has_col_true _ _)) by (by rewrite ?Hm, ?Ha).
  by rewrite Hm, Ha.
Qed.



Lemma standardise_dataset2_lookup (df : DataFrame) (c : string) :
  cols (standardise_dataset2 df) !! c =
    if decide (c ∈ ["hours_after_sunset"; "bat_landing_number"; "food_availability";
                    "rat_minutes"; "rat_arrival_number"; "month"])
    then to_numeric <$> cols df !! c else cols df !! c.
Proof. apply coerce_numeric_lookup. Qed.

End Kruskal.



(** X2: when the non-missing months of Dataset B are all one value, the
    Kruskal-Wallis block runs no test and leaves the tests as they are. *)
Theorem kruskal_skips_single_month `{Libs} (d2 : DataFrame)
    (tests : gmap string test_result) (month : list cell) (k : cell) :
  cols d2 !! "month" = Some month →
  (∀ c, c ∈ month → isna c = true ∨ c = k) →
  kw_test d2 tests = Ok tests.
Proof.
  intros Hm Hone.
  destruct (cols d2 !! "rat_arrival_number") as [arr|] eqn:Ha.
  - rewrite (kw_test_run d2 tests month arr Hm Ha).
    pose proof (groupby_one_value month arr k Hone) as Hlen.
    unfold kw_groups. rewrite length_fmap.
    by rewrite (proj2 (Nat.ltb_ge _ _) Hlen).
  - unfold kw_test, has_col. rewrite Ha.
    rewrite (bool_decide_eq_false_2 (is_Some None)) by (by intros [? ?]).
    by rewrite andb_false_r.
Qed.

Lemma kruskal_skips_single_month_witness :
  kw_test (H := Examples.libs) MoreExamples.one_month ∅ = Ok ∅.
Proof.
  apply (@kruskal_skips_single_month Examples.libs MoreExamples.one_month ∅
           [VInt 3; VInt 3; NaN; VInt 3] (VInt 3)).
  - reflexivity.
  - intros c Hc. rewrite !elem_of_cons, elem_of_nil in Hc.
    destruct Hc as [->|[->|[->|[->|[]]]]]; auto.
Defined.

(** ** The Mann-Whitney samples *)

Lemma length_dropna_le (s : list cell) : (length (dropna s) ≤ length s)%nat.
Proof.
  unfold dropna. induction s as [|c s IH]; simpl; [lia|].
  destruct (notna c); simpl; lia.
Qed.

(** The rows with risk 0 and the rows with risk 1 are different rows. *)
Lemma loc_eq_disjoint (l : list (cell * cell)) :
  (length (List.filter (λ kv, cell_eqb kv.1 (VInt 0)) l)
   + length (List.filter (λ kv, cell_eqb kv.1 (VInt 1)) l) ≤ length l)%nat.
Proof.
  induction l as [|kv l IH]; simpl; [lia|].
  destruct (cell_eqb kv.1 (VInt 0)) eqn:H0; destruct (cell_eqb kv.1 (VInt 1)) eqn:H1;
    simpl; try lia.
  destruct (cell_eqb_0_1 _ H0 H1).
Qed.

Lemma mw_samples_sizes (risk sec : list cell) :
  (length (mw_samples risk sec).1 + length (mw_samples risk sec).2
   ≤ length risk)%nat.
Proof.
  unfold mw_samples, loc_eq. simpl.
  pose proof (length_dropna_le (List.filter (λ kv, cell_eqb kv.1 (VInt 0)) (zip risk sec)).*2).
  pose proof (length_dropna_le (List.filter (λ kv, cell_eqb kv.1 (VInt 1)) (zip risk sec)).*2).
  pose proof (loc_eq_disjoint (zip risk sec)).
  rewrite !length_fmap in *.
  assert (length (zip risk sec) ≤ length risk)%nat by (rewrite length_zip; lia).
  lia.
Qed.

Section MannWhitney.
Context `{Libs}.

Lemma mw_test_result (d1 : DataFrame) (tests tests' : gmap string test_result)
    (t : test_result) :
  mw_test d1 tests = Ok tests' →
  tests !! "sec_after_rat_by_risk_mw" = None →
  tests' !! "sec_after_rat_by_risk_mw" = Some t →
  ∃ risk sec U p,
    cols d1 !! "risk" = Some risk
    ∧ cols d1 !! "seconds_after_rat_arrival" = Some sec
    ∧ t = MWResult U p (length (mw_samples risk sec).1) (length (mw_samples risk sec).2)
    ∧ (3 < length (mw_samples risk sec).1)%nat
    ∧ (3 < length (mw_samples risk sec).2)%nat.
Proof.
  unfold mw_test. rewrite has_cols_pair.
  destruct (has_col d1 "risk") eqn:Hr; simpl; [|intros [= <-]; congruence].
  destruct (has_col d1 "seconds_after_rat_arrival") eqn:Hs; simpl;
    [|intros [= <-]; congruence].
  destruct (getitem_has_col _ _ Hr) as (risk & Hrisk & ->).
  destruct (getitem_has_col _ _ Hs) as (sec & Hsec & ->). simpl.
  destruct ((3 <? _)%nat && (3 <? _)%nat) eqn:Hlen; [|intros [= <-]; congruence].
  apply andb_true_iff in Hlen as [Ha%Nat.ltb_lt Hb%Nat.ltb_lt].
  unfold mann_whitney. destruct (mannwhitneyu _ _) as [[U p]|]; simpl; [|done].
  intros [= <-] _. rewrite lookup_insert_eq. intros [= <-].
  by exists risk, sec, U, p.
Qed.

End MannWhitney.

(** X3: a Mann-Whitney result in the summary records two sample sizes that
    are both above 3 and together do not exceed the number of rows of a
    well-formed Dataset A. *)
Theorem mann_whitney_sizes `{Libs} (root : string) (w w' : world) (s : summary)
    (raw1 : DataFrame) (t : test_result) :
  run_all root w = (Ok s, w') →
  read_csv (path_join root "dataset1(1).csv") = Ok raw1 →
  wf_frame raw1 →
  tests s !! "sec_after_rat_by_risk_mw" = Some t →
  ∃ U p n_a n_b,
    t = MWResult U p n_a n_b
    ∧ (3 < n_a)%nat ∧ (3 < n_b)%nat ∧ (n_a + n_b ≤ nrows raw1)%nat.
Proof.
  intros Hrun Hread Hwf Ht.
  apply run_all_ok in Hrun as (d1 & d2 & w1 & t1 & t2 & Hload & _ & _ & H1 & H2 & H3 & _).
  apply load_clean_ok in Hload as (raw1' & raw2 & Hread' & _ & Hstd & _).
  rewrite Hread in Hread'. injection Hread' as <-.
  assert (tests s !! "sec_after_rat_by_risk_mw" = t2 !! "sec_after_rat_by_risk_mw") as Heq.
  { apply kw_test_cases in H3 as [[t' ->]| ->]; [|done]. by rewrite lookup_insert_ne. }
  rewrite Heq in Ht.
  assert (t1 !! "sec_after_rat_by_risk_mw" = None) as Hfresh.
  { apply chi2_test_cases in H1 as [[_ [t' ->]]|[_ ->]]; [|done].
    by rewrite lookup_insert_ne. }
  destruct (mw_test_result d1 t1 t2 t H2 Hfresh Ht)
    as (risk & sec & U & p & Hrisk & Hsec & -> & Ha & Hb).
  eexists U, p, _, _. split; [done|]. split; [done|]. split; [done|].
  destruct (standardise_dataset1_wf raw1 d1 Hwf Hstd) as [Hwf1 <-].
  rewrite <-(Hwf1 "risk" risk Hrisk). apply mw_samples_sizes.
Qed.

Lemma mann_whitney_sizes_witness :
  ∃ U p n_a n_b,
    (MWResult (S754_zero false) PyFloat.f1_0 4 4) = MWResult U p n_a n_b
    ∧ (3 < n_a)%nat ∧ (3 < n_b)%nat ∧ (n_a + n_b ≤ nrows Examples.dataset1)%nat.
Proof.
  apply (@mann_whitney_sizes Examples.libs "data" empty_world
           MoreExamples.run_world MoreExamples.run_summary Examples.dataset1 _
           example_run).
  - reflexivity.
  - apply (bool_decide_unpack _). exact I.
  - reflexivity.
Defined.

(** ** When the standardiser raises *)

Lemma rmapM_raise {A B} (f : A → result B) (l : list A) (e : exn) :
  rmapM f l = Raise e → ∃ a, a ∈ l ∧ f a = Raise e.
Proof.
  induction l as [|a l IH]; simpl; [done|].
  destruct (f a) as [b|e'] eqn:Hfa; simpl.
  - destruct (rmapM f l) as [bs|e'']; simpl; [done|].
    intros [= ->]. destruct (IH eq_refl) as (a' & Ha' & Hf).
    exists a'. split; [|done]. apply elem_of_cons. auto.
  - intros [= ->]. exists a. split; [|done]. apply elem_of_cons. auto.
Qed.

Section Raises.
Context `{Libs}.

Lemma dry_wet_numeric_raise (c : cell) (e : exn) :
  is_numeric c = true → dry_wet_from_month c = Raise e →
  is_infinite c = true ∧ e = OverflowError.
Proof.
  unfold dry_wet_from_month.
  destruct c as [z|[s|s| |s m x]| |]; simpl; try done.
  by intros _ [= <-].
Qed.

Lemma dry_wet_infinite (c : cell) :
  is_infinite c = true → dry_wet_from_month c = Raise OverflowError.
Proof. by destruct c as [z|[s|s| |s m x]| |]. Qed.

End Raises.

(** X4: standardise_dataset1 raises exactly when the coerced month column
    holds an infinity, and what it raises then is OverflowError; with no
    month column or only finite and missing months it returns. *)
Theorem standardise_dataset1_raises_on_infinity `{Libs} (df : DataFrame) :
  (is_ok (standardise_dataset1 df) = false
   ↔ ∃ month c,
       cols df !! "month" = Some month
       ∧ c ∈ to_numeric month ∧ is_infinite c = true)
  ∧ (∀ e, standardise_dataset1 df = Raise e → e = OverflowError).
Proof.
  rewrite standardise_dataset1_unfold, coerced1_month.
  destruct (cols df !! "month") as [month|]; simpl.
  2:{ split; [|done]. split; [done|]. by intros (? & ? & ? & _). }
  destruct (series_map dry_wet_from_month (to_numeric month)) as [dw|e] eqn:Hdw; simpl.
  - split; [|done]. split; [done|]. intros (month' & c & [= <-] & Hc & Hinf).
    apply series_map_ok in Hdw as [_ Hdw].
    apply list_elem_of_lookup in Hc as [i Hi].
    destruct (Hdw i c Hi) as (r & Hr & _). by rewrite dry_wet_infinite in Hr.
  - unfold series_map in Hdw. apply rmapM_raise in Hdw as (c & Hc & Hraise).
    assert (dry_wet_from_month c = Raise e) as Hc'.
    { destruct (dry_wet_from_month c); simpl in Hraise; [done|]. by injection Hraise as ->. }
    assert (is_numeric c = true) as Hnum.
    { apply list_elem_of_lookup in Hc as [i Hi].
      by apply (proj1 (Forall_lookup _ _) (to_numeric_is_numeric month) i c). }
    destruct (dry_wet_numeric_raise c e Hnum Hc') as [Hinf ->].
    split; [|by intros ? [= <-]]. split; [|done]. intros _. by exists month, c.
Qed.

Lemma standardise_dataset1_raises_on_infinity_witness :
  standardise_dataset1 (H := Examples.libs) MoreExamples.infinite_month
  = Raise OverflowError.
Proof.
  destruct (standardise_dataset1 (H := Examples.libs) MoreExamples.infinite_month)
    as [d|e] eqn:Hrun.
  - settled_by_evaluation Hrun.
  - f_equal.
    apply (proj2 (@standardise_dataset1_raises_on_infinity Examples.libs
                    MoreExamples.infinite_month) e Hrun).
Defined.

(** ** Coercion, composed *)

Lemma frame_eq (a b : DataFrame) : nrows a = nrows b → cols a = cols b → a = b.
Proof. destruct a, b. simpl. by intros -> ->. Qed.

Lemma coerce_numeric_twice `{Libs} (df : DataFrame) (cs : list string) :
  coerce_numeric (coerce_numeric df cs) cs = coerce_numeric df cs.
Proof.
  apply frame_eq; [by rewrite !coerce_numeric_nrows|].
  apply map_eq. intros c. rewrite !coerce_numeric_lookup.
  case_decide; [|done]. destruct (cols df !! c); simpl; [|done].
  by rewrite to_numeric_idemp.
Qed.

Lemma standardise_dataset1_with_season `{Libs} (df df' : DataFrame) :
  standardise_dataset1 df = Ok df' → ∃ s, df' = with_season (coerced1 df) s.
Proof.
  rewrite standardise_dataset1_unfold.
  destruct (cols (coerced1 df) !! "month"); simpl.
  - destruct (series_map _ _); simpl; [|done]. intros [= <-]. eauto.
  - intros [= <-]. eauto.
Qed.

(** X5: coerce_numeric depends on the set of names it is given, not on their
    order or repetition, and coercing a second time changes nothing. *)
Theorem coerce_numeric_idempotent `{Libs} (df : DataFrame) (cs cs' : list string) :
  ((∀ c, c ∈ cs ↔ c ∈ cs') → coerce_numeric df cs = coerce_numeric df cs')
  ∧ coerce_numeric (coerce_numeric df cs) cs = coerce_numeric df cs
  ∧ coerce_numeric df (cs ++ cs') = coerce_numeric (coerce_numeric df cs) cs'.
Proof.
  split; [|split].
  - intros Hsame. apply frame_eq; [by rewrite !coerce_numeric_nrows|].
    apply map_eq. intros c. rewrite !coerce_numeric_lookup.
    destruct (decide (c ∈ cs)) as [Hc|Hc].
    + by rewrite decide_True by (by apply Hsame).
    + by rewrite decide_False by (by rewrite <-Hsame).
  - apply coerce_numeric_twice.
  - unfold coerce_numeric. apply foldl_app.
Qed.

Lemma coerce_numeric_idempotent_witness :
  coerce_numeric (H := Examples.libs) Examples.coded_risk ["risk"; "reward"]
  = coerce_numeric (H := Examples.libs) Examples.coded_risk ["reward"; "risk"; "risk"].
Proof.
  apply (proj1 (@coerce_numeric_idempotent Examples.libs Examples.coded_risk
                  ["risk"; "reward"] ["reward"; "risk"; "risk"])).
  intros c. rewrite !elem_of_cons, elem_of_nil. tauto.
Defined.

(** X6: standardise_dataset2 keeps the rows and the set of columns (it
    adds no season column), keeps a well-formed table well-formed, makes
    each of its six columns numeric and leaves every other column as it
    is. *)
Theorem standardise_dataset2_spec `{Libs} (df : DataFrame) :
  nrows (standardise_dataset2 df) = nrows df
  ∧ dom (cols (standardise_dataset2 df)) = dom (cols df)
  ∧ shape (standardise_dataset2 df) = shape df
  ∧ (wf_frame df → wf_frame (standardise_dataset2 df))
  ∧ (∀ c col, cols (standardise_dataset2 df) !! c = Some col →
       c ∈ ["hours_after_sunset"; "bat_landing_number"; "food_availability";
            "rat_minutes"; "rat_arrival_number"; "month"] →
       Forall (λ x, is_numeric x = true) col)
  ∧ (∀ c, c ∉ ["hours_after_sunset"; "bat_landing_number"; "food_availability";
               "rat_minutes"; "rat_arrival_number"; "month"] →
       cols (standardise_dataset2 df) !! c = cols df !! c)
  ∧ standardise_dataset2 (standardise_dataset2 df) = standardise_dataset2 df.
Proof.
  assert (dom (cols (standardise_dataset2 df)) = dom (cols df)) as Hdom.
  { apply set_eq. intros k. rewrite !elem_of_dom, standardise_dataset2_lookup.
    case_decide; [|done]. destruct (cols df !! k); simpl; split; intros [? ?]; by eauto. }
  split; [apply coerce_numeric_nrows|]. split; [done|].
  split.
  { unfold shape. f_equal; [apply coerce_numeric_nrows|].
    by rewrite <-!size_dom, Hdom. }
  split; [apply coerce_numeric_wf|].
  split.
  { intros c col. rewrite standardise_dataset2_lookup. intros Hcol Hc.
    rewrite decide_True in Hcol by done.
    destruct (cols df !! c); simpl in Hcol; [|done]. injection Hcol as <-.
    apply to_numeric_is_numeric. }
  split.
  { intros c Hc. by rewrite standardise_dataset2_lookup, decide_False. }
  apply coerce_numeric_twice.
Qed.

Lemma standardise_dataset2_spec_witness :
  wf_frame (standardise_dataset2 (H := Examples.libs) Examples.dataset2).
Proof.
  apply (@standardise_dataset2_spec Examples.libs Examples.dataset2).
  apply (bool_decide_unpack _). exact I.
Defined.

(** ** The standardised Dataset A as a table *)

(** X7: a well-formed table stays well-formed through standardise_dataset1,
    with the same number of rows; apart from season and season_dw, its
    columns are the input's, the five listed ones coerced and the others
    untouched. *)
Theorem standardise_dataset1_frame `{Libs} (df df' : DataFrame) :
  standardise_dataset1 df = Ok df' →
  nrows df' = nrows df
  ∧ (wf_frame df → wf_frame df')
  ∧ (∀ c, c ≠ "season" → c ≠ "season_dw" →
       cols df' !! c =
         if decide (c ∈ ["risk"; "reward"; "seconds_after_rat_arrival";
                         "hours_after_sunset"; "month"])
         then to_numeric <$> cols df !! c else cols df !! c).
Proof.
  intros Hrun. split; [|split].
  - apply (standardise_dataset1_lookup df df' "risk" Hrun); done.
  - intros Hwf. by apply (standardise_dataset1_wf df df' Hwf Hrun).
  - intros c Hs Hdw.
    rewrite (proj1 (standardise_dataset1_lookup df df' c Hrun Hs Hdw)).
    apply coerce_numeric_lookup.
Qed.

Lemma standardise_dataset1_frame_witness :
  nrows Examples.months_and_seasons_std = nrows Examples.months_and_seasons
  ∧ wf_frame Examples.months_and_seasons_std.
Proof.
  destruct (@standardise_dataset1_frame Examples.libs Examples.months_and_seasons
              Examples.months_and_seasons_std) as (Hn & Hwf & _).
  - reflexivity.
  - split; [done|]. apply Hwf. apply (bool_decide_unpack _). exact I.
Defined.

(** X8: once a table has gone through standardise_dataset1 it has a season
    column and no season_dw column, whatever the input had, so a gate of
    make_figures that asks for season and another column asks for that
    other column alone. *)
Theorem season_gate_always_open `{Libs} (df df' : DataFrame) (c : string) :
  standardise_dataset1 df = Ok df' →
  c ≠ "season" → c ≠ "season_dw" →
  has_col df' "season" = true
  ∧ has_col df' "season_dw" = false
  ∧ has_cols df' ["season"; c] = has_col df c.
Proof.
  intros Hrun Hs Hdw.
  assert (has_col df' "season" = true ∧ has_col df' "season_dw" = false) as [H1 H2].
  { destruct (standardise_dataset1_with_season df df' Hrun) as [s ->].
    destruct (with_season_lookup (coerced1 df) s) as [Hseason Hgone].
    unfold has_col. rewrite Hseason, Hgone. split.
    - by apply bool_decide_eq_true.
    - apply bool_decide_eq_false. by intros [? ?]. }
  split; [done|]. split; [done|].
  rewrite has_cols_pair, H1. simpl. by apply standardise_dataset1_has_col.
Qed.

Lemma season_gate_always_open_witness :
  has_cols Examples.months_and_seasons_std ["season"; "risk"]
  = has_col Examples.months_and_seasons "risk".
Proof.
  apply (@season_gate_always_open Examples.libs Examples.months_and_seasons
           Examples.months_and_seasons_std "risk").
  - reflexivity.
  - done.
  - done.
Defined.

(** ** chi_square on series with gaps *)

Lemma filter_length_le {A} (P : A → bool) (l : list A) :
  (length (List.filter P l) ≤ length l)%nat.
Proof. induction l as [|x l IH]; simpl; [lia|]. destruct (P x); simpl; lia. Qed.

Lemma filter_length_all {A} (P : A → bool) (l : list A) :
  length (List.filter P l) = length l → Forall (λ x, P x = true) l.
Proof.
  induction l as [|x l IH]; simpl; [by constructor|].
  pose proof (filter_length_le P l). destruct (P x) eqn:HP; simpl; [|lia].
  intros Hlen. constructor; [done|]. apply IH. lia.
Qed.

(** X9: chi_square itself drops every row in which one of the two values is
    missing: the table it reports counts at most as many observations as
    there are rows, and exactly as many only when no value is missing. *)
Theorem chi_square_drops_missing `{Libs} (a b : list cell) (t : test_result) :
  length a = length b →
  chi_square a b = Ok t →
  ∃ chi2 p dof table,
    t = Chi2Result chi2 p dof table
    ∧ (counts_total table ≤ length a)%nat
    ∧ (counts_total table = length a
       ↔ Forall (λ c, notna c = true) a ∧ Forall (λ c, notna c = true) b).
Proof.
  intros Hlen. unfold chi_square.
  destruct (chi2_contingency _) as [[[chi2 p] dof]|]; simpl; [|done].
  intros [= <-]. exists chi2, p, dof, (crosstab a b). split; [done|].
  rewrite crosstab_total.
  assert (length (zip a b) = length a) as Hzip by (rewrite length_zip; lia).
  split; [rewrite <-Hzip; apply filter_length_le|].
  split.
  - rewrite <-Hzip. intros Hall%filter_length_all.
    split; apply Forall_lookup; intros i c Hc.
    + destruct (lookup_lt_is_Some_2 b i) as [y Hy].
      { rewrite <-Hlen. by eapply lookup_lt_Some. }
      assert (zip a b !! i = Some (c, y)) as Hi.
      { apply lookup_zip_with_Some. eauto. }
      pose proof (proj1 (Forall_lookup _ _) Hall i _ Hi) as Hp.
      unfold both_present in Hp. simpl in Hp. by apply andb_true_iff in Hp as [? ?].
    + destruct (lookup_lt_is_Some_2 a i) as [x Hx].
      { rewrite Hlen. by eapply lookup_lt_Some. }
      assert (zip a b !! i = Some (x, c)) as Hi.
      { apply lookup_zip_with_Some. eauto. }
      pose proof (proj1 (Forall_lookup _ _) Hall i _ Hi) as Hp.
      unfold both_present in Hp. simpl in Hp. by apply andb_true_iff in Hp as [? ?].
  - intros [Ha Hb]. rewrite filter_all; [done|].
    apply Forall_lookup. intros i [x y] Hi.
    apply lookup_zip_with_Some in Hi as (x' & y' & [= -> ->] & Hx & Hy).
    unfold both_present. simpl.
    rewrite (proj1 (Forall_lookup _ _) Ha i x' Hx).
    by rewrite (proj1 (Forall_lookup _ _) Hb i y' Hy).
Qed.

Lemma chi_square_drops_missing_witness :
  ∃ chi2 p dof table,
    Chi2Result (S754_zero false) PyFloat.f1_0 1
      [((VInt 0, VInt 1), 1%nat); ((VInt 1, VInt 0), 1%nat)]
    = Chi2Result chi2 p dof table
    ∧ (counts_total table ≤ 3)%nat
    ∧ (counts_total table = 3%nat
       ↔ Forall (λ c, notna c = true) MoreExamples.gappy_a
         ∧ Forall (λ c, notna c = true) MoreExamples.gappy_b).
Proof.
  apply (@chi_square_drops_missing Examples.libs MoreExamples.gappy_a
           MoreExamples.gappy_b).
  - reflexivity.
  - reflexivity.
Defined.

(** ** What make_figures writes *)

Section FigureBlocks.
Context `{Libs}.

Lemma series_plot_ok (k : plot_kind) (data : list (cell * cell)) (w w' : world) :
  figs w = [] → series_plot k data w = (Ok tt, w') →
  w' = set_figs [draw k data new_figure] w.
Proof.
  destruct w as [fg sv md wr]. simpl. intros ->.
  unfold series_plot, on_current, gcf. rewrite !bind_run.
  destruct (plot_error k data); simpl; [done|]. by intros [= <-].
Qed.

Lemma frame_scatter_ok (data : list (cell * cell)) (w w' : world) :
  frame_scatter data w = (Ok tt, w') →
  w' = set_figs (draw Scatter data new_figure :: figs w) w.
Proof.
  unfold frame_scatter. rewrite bind_run.
  destruct (plot_error Scatter data); simpl; [done|]. by intros [= <-].
Qed.

Lemma on_current_ok (g : figure → figure) (w w' : world) r :
  on_current g w = (r, w') →
  r = Ok tt ∧ w' = match figs w with
                   | f :: fs => set_figs (g f :: fs) w
                   | [] => w
                   end.
Proof. unfold on_current, modify. by intros [= <- <-]. Qed.

Lemma safe_savefig_world (p : string) (w w' : world) :
  safe_savefig p w = (Ok tt, w') →
  w' = {| figs := tail (figs w); saved := (p, current_figure w) :: saved w;
          made_dirs := path_dirname p :: made_dirs w; written := written w |}.
Proof.
  rewrite safe_savefig_run.
  destruct (makedirs_error _); [done|]. simpl.
  destruct (tight_layout_error _); [done|].
  destruct (savefig_error _ _); [done|]. by intros [= <-].
Qed.

Ltac block_steps Hrun :=
  repeat match type of Hrun with
    | (lift _ ≫= _) _ = _ =>
        let a := fresh "data" in
        apply bind_ok in Hrun as (a & ? & [_ ->]%lift_ok & Hrun)
    | (series_plot _ _ ≫= _) _ = _ =>
        apply bind_ok in Hrun as ([] & ? & ->%series_plot_ok & Hrun); [|done]
    | (frame_scatter _ ≫= _) _ = _ =>
        apply bind_ok in Hrun as ([] & ? & ->%frame_scatter_ok & Hrun)
    | (on_current _ ≫= _) _ = _ =>
        apply bind_ok in Hrun as ([] & ? & [_ ->]%on_current_ok & Hrun);
        simpl in Hrun
    | (_ ≫= _) _ = _ => fail
    | safe_savefig _ _ = _ => apply safe_savefig_world in Hrun as ->
    end.

Lemma block_done (b : bool) (p : string) (m : Run unit) :
  (b = true → ∀ w w', figs w = [] → m w = (Ok tt, w') →
     figs w' = [] ∧ written w' = written w
     ∧ ∃ f, saved w' = (p, f) :: saved w ∧ single_plot f) →
  block_spec b p (when b m).
Proof.
  intros Hm w w' Hfigs. destruct b; simpl.
  - intros Hrun. destruct (Hm eq_refl w w' Hfigs Hrun) as (? & ? & ?). auto.
  - by intros [= <-].
Qed.

Lemma series_block (b : bool) (p t y : string) (k : plot_kind)
    (r : result (list (cell * cell))) :
  block_spec b p
    (when b (lift r ≫= λ data, series_plot k data;; set_title t;; set_ylabel y;;
                                safe_savefig p)).
Proof.
  apply block_done. intros _ w w' Hfigs Hrun.
  unfold set_title, set_ylabel in Hrun. destruct w as [fg sv md wr]. simpl in Hfigs.
  subst fg. block_steps Hrun. simpl. split; [done|]. split; [done|].
  eexists. split; [reflexivity|]. reflexivity.
Qed.

Lemma series_block_x (b : bool) (p t x y : string) (k : plot_kind)
    (r : result (list (cell * cell))) :
  block_spec b p
    (when b (lift r ≫= λ data, series_plot k data;; set_title t;; set_xlabel x;;
                                set_ylabel y;; safe_savefig p)).
Proof.
  apply block_done. intros _ w w' Hfigs Hrun.
  unfold set_title, set_xlabel, set_ylabel in Hrun. destruct w as [fg sv md wr].
  simpl in Hfigs. subst fg. block_steps Hrun. simpl. split; [done|]. split; [done|].
  eexists. split; [reflexivity|]. reflexivity.
Qed.

Lemma scatter_block (b : bool) (p t : string) (rx ry : result (list cell)) :
  block_spec b p
    (when b (lift rx ≫= λ x, lift ry ≫= λ y,
               frame_scatter (zip x y);; set_title t;; safe_savefig p)).
Proof.
  apply block_done. intros _ w w' Hfigs Hrun.
  unfold set_title in Hrun. destruct w as [fg sv md wr].
  simpl in Hfigs. subst fg. block_steps Hrun. simpl. split; [done|]. split; [done|].
  eexists. split; [reflexivity|]. reflexivity.
Qed.

Lemma seq_spec_last (b : bool) (p : string) (m : Run unit) :
  block_spec b p m → seq_spec [(b, p)] m.
Proof.
  intros Hm w w' Hfigs Hrun. destruct (Hm w w' Hfigs Hrun) as (Hf & Hw & Hs).
  split; [done|]. split; [done|]. destruct b.
  - destruct Hs as (f & -> & Hone). exists [(p, f)]. repeat split; try done.
    by repeat constructor.
  - exists []. by rewrite Hs.
Qed.

Lemma seq_spec_cons (b : bool) (p : string) (m k : Run unit) rules :
  block_spec b p m → seq_spec rules k → seq_spec ((b, p) :: rules) (m ;; k).
Proof.
  intros Hm Hk w w' Hfigs Hrun.
  apply bind_ok in Hrun as ([] & w1 & Hfirst & Hrest).
  destruct (Hm w w1 Hfigs Hfirst) as (Hf1 & Hw1 & Hs1).
  destruct (Hk w1 w' Hf1 Hrest) as (Hf & Hw & new & Hs & Hnames & Hone).
  split; [done|]. split; [congruence|]. destruct b.
  - destruct Hs1 as (f & Hs1 & Hf1one). exists (new ++ [(p, f)]).
    rewrite Hs, Hs1, <-app_assoc. split; [done|]. split.
    + rewrite fmap_app, Hnames.
      by change (images_due ((true, p) :: rules)) with (p :: images_due rules).
    + apply Forall_app. split; [done|]. by repeat constructor.
  - exists new. by rewrite Hs, Hs1.
Qed.

Lemma make_figures_seq (d1 d2 : DataFrame) (dir : string) :
  seq_spec (figure_rules d1 d2 dir) (make_figures d1 d2 dir).
Proof.
  unfold figure_rules, make_figures.
  apply seq_spec_cons; [apply series_block|].
  apply seq_spec_cons; [apply series_block|].
  apply seq_spec_cons; [apply series_block|].
  apply seq_spec_cons; [apply series_block|].
  apply seq_spec_cons; [apply series_block_x|].
  apply seq_spec_cons; [apply scatter_block|].
  apply seq_spec_last, scatter_block.
Qed.

End FigureBlocks.

(** X10: when make_figures starts with no open figure and returns, it
    leaves no figure open, and every image it has written shows exactly one
    plot: no drawing of one rule ends up in the image of another. *)
Theorem make_figures_closes_figures `{Libs} (d1 d2 : DataFrame) (dir : string)
    (w w' : world) :
  figs w = [] →
  make_figures d1 d2 dir w = (Ok tt, w') →
  figs w' = []
  ∧ ∀ pf, pf ∈ saved w' → pf ∈ saved w ∨ single_plot pf.2.
Proof.
  intros Hfigs Hrun.
  destruct (make_figures_seq d1 d2 dir w w' Hfigs Hrun)
    as (Hf & _ & new & -> & _ & Hone).
  split; [done|]. intros pf [Hin|Hin]%elem_of_app; [right|by left].
  by apply (proj1 (Forall_forall _ _) Hone).
Qed.

Lemma make_figures_closes_figures_witness : figs MoreExamples.figures_world = [].
Proof.
  apply (@make_figures_closes_figures Examples.libs Examples.indicators
           Examples.dataset2 "figures" empty_world MoreExamples.figures_world
           eq_refl example_figures).
Defined.

(** X11: when make_figures starts with no open figure and returns, the
    images it has written are exactly those whose gate is open, one each and
    in the order of the source (the latest first in the record), and it has
    written no text file. *)
Theorem make_figures_writes_gated_images `{Libs} (d1 d2 : DataFrame) (dir : string)
    (w w' : world) :
  figs w = [] →
  make_figures d1 d2 dir w = (Ok tt, w') →
  written w' = written w
  ∧ ∃ new, saved w' = new ++ saved w
           ∧ new.*1 = rev (images_due (figure_rules d1 d2 dir)).
Proof.
  intros Hfigs Hrun.
  destruct (make_figures_seq d1 d2 dir w w' Hfigs Hrun)
    as (_ & Hw & new & Hs & Hnames & _).
  split; [done|]. by exists new.
Qed.

Lemma make_figures_writes_gated_images_witness :
  ∃ new, saved MoreExamples.figures_world = new ++ []
         ∧ new.*1 = ["figures/rat_arrivals_by_month.png"].
Proof.
  apply (@make_figures_writes_gated_images Examples.libs Examples.indicators
           Examples.dataset2 "figures" empty_world MoreExamples.figures_world
           eq_refl example_figures).
Defined.

(** ** What run_all writes *)

Section ExportFacts.
Context `{Libs}.

Lemma writes_ret {A} (a : A) : keeps_written (mret a).
Proof. by intros w r w' [= <- <-]. Qed.

Lemma writes_lift {A} (r : result A) : keeps_written (lift r).
Proof. by intros w r' w' [= <- <-]. Qed.

Lemma writes_check (e : option exn) : keeps_written (check e).
Proof. destruct e; by intros w r w' [= <- <-]. Qed.

Lemma writes_modify (f : world → world) :
  (∀ w, written (f w) = written w) → keeps_written (modify f).
Proof. intros Hf w r w' [= <- <-]. apply Hf. Qed.

Lemma writes_gcf : keeps_written gcf.
Proof. intros w r w'. unfold gcf. destruct (figs w); by intros [= <- <-]. Qed.

Lemma writes_bind {A B} (m : Run A) (k : A → Run B) :
  keeps_written m → (∀ a, keeps_written (k a)) → keeps_written (m ≫= k).
Proof.
  intros Hm Hk w r w'. rewrite bind_run.
  destruct (m w) as [[a|e] w1] eqn:Hmw.
  - intros Hka. etrans; [by eapply Hk|by eapply Hm].
  - intros [= <- <-]. by eapply Hm.
Qed.

Lemma writes_when (b : bool) (m : Run unit) : keeps_written m → keeps_written (when b m).
Proof. destruct b; [done|]. intros _. apply writes_ret. Qed.

Lemma writes_on_current g : keeps_written (on_current g).
Proof. apply writes_modify. intros w. by destruct (figs w). Qed.

Lemma writes_make_figures (d1 d2 : DataFrame) (dir : string) :
  keeps_written (make_figures d1 d2 dir).
Proof.
  unfold make_figures, safe_savefig, os_makedirs, plt_tight_layout, plt_savefig,
    plt_close, series_plot, frame_scatter, set_title, set_xlabel, set_ylabel.
  repeat first
    [ apply writes_ret | apply writes_lift | apply writes_check
    | apply writes_gcf | apply writes_on_current
    | apply writes_modify; intros ?; done
    | apply writes_when
    | apply writes_bind; [|intros ?] ].
Qed.

Lemma bind_lift {A B} (r : result A) (k : A → Run B) (w : world) :
  (lift r ≫= k) w = match r with Ok a => k a w | Raise e => (Raise e, w) end.
Proof. by destruct r. Qed.

Lemma write_file_run (p c : string) (w : world) :
  write_file p c w =
    match write_error p with
    | Some e => (Raise e, w)
    | None => (Ok tt, {| figs := figs w; saved := saved w; made_dirs := made_dirs w;
                         written := (p, c) :: written w |})
    end.
Proof. unfold write_file. rewrite bind_run. by destruct (write_error p). Qed.

End ExportFacts.

(** X12: run_all writes its two summary files last: a run that returns has
    added the JSON summary and then the text digest, both of the summary it
    returns, and a run that raises has written no text file at all, or the
    JSON summary alone. *)
Theorem run_all_exports_last `{Libs} (root : string) (w : world) :
  (∀ s w', run_all root w = (Ok s, w') →
     written w' =
       (path_join root "quick_metrics.txt", String.concat newline (quick_metrics s))
       :: (path_join root "eda_summary.json", json_dumps s) :: written w)
  ∧ (∀ e w', run_all root w = (Raise e, w') →
       written w' = written w
       ∨ ∃ js, written w' = (path_join root "eda_summary.json", js) :: written w).
Proof.
  unfold run_all. rewrite bind_lift.
  destruct (load_clean root) as [[d1 d2]|e0]; [|split; [done|intros ?? [= <- <-]; auto]].
  cbn beta iota. rewrite bind_run.
  destruct (make_figures d1 d2 (path_join root "figures") w) as [[[]|e1] w1] eqn:Hfig;
    pose proof (writes_make_figures d1 d2 _ _ _ _ Hfig) as Hw1;
    [|split; [done|intros ?? [= <- <-]; auto]].
  rewrite bind_lift.
  destruct (mean_rates d1) as [means|e2]; [|split; [done|intros ?? [= <- <-]; auto]].
  rewrite bind_lift.
  destruct (chi2_test d1 ∅) as [t1|e3]; [|split; [done|intros ?? [= <- <-]; auto]].
  rewrite bind_lift.
  destruct (mw_test d1 t1) as [t2|e4]; [|split; [done|intros ?? [= <- <-]; auto]].
  rewrite bind_lift.
  destruct (kw_test d2 t2) as [t3|e5]; [|split; [done|intros ?? [= <- <-]; auto]].
  cbn zeta. rewrite bind_run, write_file_run.
  destruct (write_error (path_join root "eda_summary.json")) as [e6|];
    [split; [done|intros ?? [= <- <-]; auto]|].
  rewrite bind_run, write_file_run.
  destruct (write_error (path_join root "quick_metrics.txt")) as [e7|].
  - split; [done|]. intros ?? [= <- <-]. right. simpl. rewrite Hw1. eauto.
  - split; [|done]. intros s w' [= <- <-]. simpl. by rewrite Hw1.
Qed.

Lemma run_all_exports_last_witness :
  written MoreExamples.run_world =
    [("data/quick_metrics.txt",
      String.concat newline
        (quick_metrics (H := Examples.libs) MoreExamples.run_summary));
     ("data/eda_summary.json", "{}")].
Proof.
  apply (proj1 (@run_all_exports_last Examples.libs "data" empty_world)
           MoreExamples.run_summary MoreExamples.run_world example_run).
Defined.

(** ** Means and shapes of the summary *)

Section Summary.
Context `{Libs}.

Lemma mean_rates_keys (d1 : DataFrame) (means : gmap string spec_float) :
  mean_rates d1 = Ok means →
  ∀ k, is_Some (means !! k)
       ↔ (k = "risk" ∨ k = "reward") ∧ has_col d1 k = true.
Proof.
  unfold mean_rates.
  destruct (has_col d1 "risk") eqn:Hr; destruct (has_col d1 "reward") eqn:Hw;
    repeat match goal with
           | Hc : has_col _ ?c = true |- _ =>
               let Hc' := fresh in
               pose proof Hc as Hc';
               destruct (getitem_has_col _ _ Hc) as (? & _ & ->); clear Hc
           end; simpl; intros [= <-] k.
  - destruct (decide (k = "reward")) as [->|?]; [rewrite lookup_insert_eq; split; [intros _; split; [auto|done]|eauto]|].
    rewrite lookup_insert_ne by done.
    destruct (decide (k = "risk")) as [->|?]; [rewrite lookup_insert_eq; split; [intros _; split; [auto|done]|eauto]|].
    rewrite lookup_insert_ne, lookup_empty by done. split; [by intros [? ?]|]. intros [[->| ->] _]; done.
  - destruct (decide (k = "risk")) as [->|?]; [rewrite lookup_insert_eq; split; [intros _; split; [auto|done]|eauto]|].
    rewrite lookup_insert_ne, lookup_empty by done.
    split; [by intros [? ?]|]. intros [[->| ->] Hk]; congruence.
  - destruct (decide (k = "reward")) as [->|?]; [rewrite lookup_insert_eq; split; [intros _; split; [auto|done]|eauto]|].
    rewrite lookup_insert_ne, lookup_empty by done.
    split; [by intros [? ?]|]. intros [[->| ->] Hk]; congruence.
  - rewrite lookup_empty. split; [by intros [? ?]|]. intros [[->| ->] Hk]; congruence.
Qed.

End Summary.

(** X13: in a run that reaches its export, the summary has a mean for risk,
    resp. reward, exactly when Dataset A has that column, and for no other
    key; the shape it reports for Dataset A has the rows of the CSV table and
    its columns with season added and season_dw removed, and the shape of
    Dataset B is that of its CSV table. *)
Theorem summary_means_and_shapes `{Libs} (root : string) (w w' : world) (s : summary)
    (raw1 raw2 : DataFrame) :
  run_all root w = (Ok s, w') →
  read_csv (path_join root "dataset1(1).csv") = Ok raw1 →
  read_csv (path_join root "dataset2(1).csv") = Ok raw2 →
  (∀ k, is_Some (means s !! k)
        ↔ (k = "risk" ∨ k = "reward") ∧ is_Some (cols raw1 !! k))
  ∧ shapes s
    = ((nrows raw1, size ((dom (cols raw1) ∪ {["season"]}) ∖ {["season_dw"]})),
       shape raw2).
Proof.
  intros Hrun Hr1 Hr2.
  apply run_all_ok in Hrun as (d1 & d2 & w1 & t1 & t2 & Hload & _ & Hmeans & _ & _ & _ & Hshape).
  apply load_clean_ok in Hload as (raw1' & raw2' & Hr1' & Hr2' & Hstd & ->).
  rewrite Hr1 in Hr1'. rewrite Hr2 in Hr2'. injection Hr1' as <-. injection Hr2' as <-.
  split.
  - intros k. rewrite (mean_rates_keys d1 (means s) Hmeans k).
    split; intros [Hk Hc]; (split; [done|]).
    + apply has_col_true. rewrite <-Hc. symmetry.
      destruct Hk as [-> | ->]; by apply standardise_dataset1_has_col.
    + apply has_col_true in Hc. rewrite <-Hc.
      destruct Hk as [-> | ->]; by apply standardise_dataset1_has_col.
  - rewrite Hshape. f_equal.
    + destruct (standardise_dataset1_with_season raw1 d1 Hstd) as [ss ->].
      unfold shape. f_equal.
      * simpl. apply coerce_numeric_nrows.
      * by rewrite <-size_dom, with_season_dom, coerced1_dom.
    + unfold shape. f_equal; [apply coerce_numeric_nrows|].
      rewrite <-!size_dom. f_equal.
      apply set_eq. intros k. rewrite !elem_of_dom, standardise_dataset2_lookup.
      case_decide; [|done]. destruct (cols raw2 !! k); simpl; split; intros [? ?]; by eauto.
Qed.

Lemma summary_means_and_shapes_witness :
  shapes MoreExamples.run_summary
  = ((nrows Examples.dataset1,
      size ((dom (cols Examples.dataset1) ∪ {["season"]}) ∖ {["season_dw"]})),
     shape Examples.dataset2).
Proof.
  apply (@summary_means_and_shapes Examples.libs "data" empty_world
           MoreExamples.run_world MoreExamples.run_summary
           Examples.dataset1 Examples.dataset2 example_run eq_refl eq_refl).
Defined.
